(** * Session-token handoff: the exchange endpoint and the client controller

    A shallow embedding of the two pieces of code that implement the
    session-token exchange:

    - the Express handler of [POST /api/web/initialize-session]
      (server, [app.post('/api/web/initialize-session', ...)]);
    - [handleSessionTokenExchange] and the DOM helpers it calls
      (client, [web-app/public/app.js]).

    JavaScript values are modelled by a JSON value type, [undefined] by
    [None], a thrown exception by [Thrown].  A number is held by its exact
    value; the one piece of arithmetic in the code, [Date.now() / 1000], is
    done in IEEE 754 double precision as the engine does it.  Strings are
    sequences of characters below 256; where the code depends on what a
    character is (upper case, white space) the model is that of ASCII text
    and the theorems say so.  Third-party and engine behaviour the code
    relies on ([jwt.decode] of the [jsonwebtoken] package, the body parser
    of Express, the engine's [ToPrimitive] and [StringToNumber], MSAL,
    [fetch]) is a parameter of the sections below. *)

From Stdlib Require Import String Ascii List ZArith QArith Bool Lia.
From Stdlib Require Import Floats.SpecFloat.
Import ListNotations.

Open Scope string_scope.
Open Scope Z_scope.

(** ** JavaScript values *)

Module Js.

#[local] Unset Elimination Schemes.
Inductive JValue : Type :=
| JNull
| JBool (b : bool)
| JNum (q : Q) (* a number by its value; an infinite one by a value
                   beyond every double *)
| JStr (s : string)
| JArr (items : list JValue)
| JObj (props : list (string * JValue)). (* own properties, one per key *)
#[local] Set Elimination Schemes.

(** A value that may be [undefined]. *)
Definition JsVal : Type := option JValue.

(** [ToBoolean]: [null], [false], [0], the empty string are falsy;
    arrays and objects are truthy. *)
Definition truthy (v : JValue) : bool :=
  match v with
  | JNull => false
  | JBool b => b
  | JNum q => negb (Qeq_bool q 0)
  | JStr s => negb (String.eqb s EmptyString)
  | JArr _ => true
  | JObj _ => true
  end.

Definition truthy_val (v : JsVal) : bool :=
  match v with
  | None => false
  | Some x => truthy x
  end.

(** [a || b] returns its first operand when it is truthy, else the second. *)
Definition js_or (a b : JsVal) : JsVal :=
  if truthy_val a then a else b.

(** [a || lit] for a non-empty string literal. *)
Definition or_literal (a : JsVal) (lit : string) : JValue :=
  match js_or a (Some (JStr lit)) with
  | Some v => v
  | None => JStr lit
  end.

Fixpoint lookup (k : string) (props : list (string * JValue)) : JsVal :=
  match props with
  | [] => None
  | (k', v) :: rest => if String.eqb k' k then Some v else lookup k rest
  end.

(** Property read [v.k] on a value that is neither [undefined] nor [null]:
    the own properties of an object.  The primitives and arrays read by
    the code have none of the names it asks for. *)
Definition get (v : JValue) (k : string) : JsVal :=
  match v with
  | JObj props => lookup k props
  | _ => None
  end.

(** [v === lit] for a string literal. *)
Definition strict_eq_str (v : JsVal) (lit : string) : bool :=
  match v with
  | Some (JStr s) => String.eqb s lit
  | _ => false
  end.

(** An object literal as [JSON.stringify] / [res.json] serialises it:
    properties whose value is [undefined] are dropped. *)
Fixpoint obj_fields (fields : list (string * JsVal)) : list (string * JValue) :=
  match fields with
  | [] => []
  | (k, Some v) :: rest => (k, v) :: obj_fields rest
  | (_, None) :: rest => obj_fields rest
  end.

Definition obj (fields : list (string * JsVal)) : JValue :=
  JObj (obj_fields fields).

Definition keys (v : JValue) : list string :=
  match v with
  | JObj props => map fst props
  | _ => []
  end.

Definition Qltb (x y : Q) : bool := negb (Qle_bool y x).

(** *** Doubles

    IEEE 754 binary64: 53 bits of precision, rounding to the nearest
    double, ties to even. *)

Definition double_of_Z (z : Z) : spec_float :=
  binary_normalize 53 1024 z 0 false.

Definition double_div (x y : spec_float) : spec_float := SFdiv 53 1024 x y.

(** The value of a finite double. *)
Definition double_value (s : bool) (m : positive) (e : Z) : Q :=
  (inject_Z (if s then Z.neg m else Z.pos m) * Qpower 2 e)%Q.

(** [q < x] for a number [q] and a double [x]. *)
Definition lt_double (q : Q) (x : spec_float) : bool :=
  match x with
  | S754_zero _ => Qltb q 0
  | S754_finite s m e => Qltb q (double_value s m e)
  | S754_infinity s => negb s
  | S754_nan => false
  end.

(** *** Text *)

(** A character of the ASCII range, and a text made of such characters. *)
Definition ascii_char (c : ascii) : bool := Nat.ltb (nat_of_ascii c) 128.

Fixpoint ascii_only (s : string) : bool :=
  match s with
  | EmptyString => true
  | String c rest => ascii_char c && ascii_only rest
  end.

(** *** Exceptions *)

Record JsError : Type := mkError {
  err_name : string;
  err_message : string;
  err_stack : string
}.

(** How an evaluation, a call or an awaited promise ends. *)
Inductive Outcome (A : Type) : Type :=
| Returned (a : A)
| Thrown (e : JsError).
Arguments Returned {A} a.
Arguments Thrown {A} e.

Definition and_then {A B} (o : Outcome A) (k : A -> Outcome B) : Outcome B :=
  match o with
  | Returned a => k a
  | Thrown e => Thrown e
  end.

Declare Scope outcome_scope.
Delimit Scope outcome_scope with outcome.
Notation "x <- m ;; k" := (and_then m (fun x => k))
  (at level 100, m at next level, right associativity) : outcome_scope.

(** *** Coercions *)

Section Coercions.

(** The engine's [StringToNumber]; [None] stands for [NaN], and a value
    beyond every double for an infinity. *)
Variable StringToNumber : string -> option Q.
(** The engine's [ToPrimitive] followed by [ToString], on values that are
    not strings.  On an object whose [toString] and [valueOf] properties
    are both overwritten with data it throws a [TypeError]. *)
Variable ToString : JValue -> Outcome string.

Definition to_text (v : JValue) : Outcome string :=
  match v with
  | JStr s => Returned s
  | _ => ToString v
  end.

(** [ToNumber(ToPrimitive(v))]. *)
Definition to_number (v : JValue) : Outcome (option Q) :=
  match v with
  | JNull => Returned (Some 0%Q)
  | JBool b => Returned (Some (if b then 1%Q else 0%Q))
  | JNum q => Returned (Some q)
  | JStr s => Returned (StringToNumber s)
  | JArr _ | JObj _ =>
      (s <- ToString v ;; Returned (StringToNumber s))%outcome
  end.

(** [v < x] for a double [x]: false when [v] coerces to [NaN]. *)
Definition lt_number (v : JValue) (x : spec_float) : Outcome bool :=
  (n <- to_number v ;;
   Returned match n with
            | Some q => lt_double q x
            | None => false
            end)%outcome.

End Coercions.

End Js.

Import Js.

(** ** The exchange endpoint *)

Module Server.

(** What [jwt.decode(token, { complete: true })] hands back when it is not
    [null]. *)
Record DecodedJwt : Type := mkDecoded {
  header : JValue;
  payload : JValue;
  signature : string
}.

Record Cookie : Type := mkCookie {
  cookie_name : string;
  (** the value whose [JSON.stringify] text is stored in the cookie *)
  cookie_value : JValue;
  httpOnly : bool;
  secure : bool;
  sameSite : string;
  maxAge : Z
}.

Record Response : Type := mkResponse {
  status : Z;
  cookies : list Cookie;
  body : JValue
}.

Inductive LogLine : Type :=
| LogInfo (text : string) (arg : JsVal)
| LogError (text : string) (error : JsError).

(** The process state the handler can see: the environment and the console. *)
Record Process : Type := mkProcess {
  NODE_ENV : option string;
  console : list LogLine
}.

(** The request body as [express.json()] and [express.urlencoded()] leave
    it (Express 4.18) when they let the request through: always an object,
    of which the handler reads [sessionToken]. *)
Record Request : Type := mkRequest {
  sessionToken : JsVal
}.

(** What the body parsers make of a request to the route: they refuse it
    (a body that is not JSON, or too large) and pass their error on, or
    they hand the request to the handler. *)
Inductive Posted : Type :=
| Refused (err : JsError)
| Parsed (req : Request).

Definition env_is (p : Process) (mode : string) : bool :=
  match NODE_ENV p with
  | Some m => String.eqb m mode
  | None => false
  end.

Definition log (l : LogLine) (p : Process) : Process :=
  {| NODE_ENV := NODE_ENV p; console := console p ++ [l] |}.

(** [res.status(code).json({ error: msg })] *)
Definition error_response (code : Z) (msg : string) : Response :=
  {| status := code; cookies := []; body := obj [("error", Some (JStr msg))] |}.

(** [Date.now() / 1000], for [Date.now()] giving [now]: the quotient of
    the two doubles, rounded. *)
Definition seconds (now : Z) : spec_float :=
  double_div (double_of_Z now) (double_of_Z 1000).

(** The characters of base64url text. *)
Definition base64url_char (c : ascii) : bool :=
  let n := nat_of_ascii c in
  (Nat.leb 65 n && Nat.leb n 90) || (Nat.leb 97 n && Nat.leb n 122)
  || (Nat.leb 48 n && Nat.leb n 57) || Nat.eqb n 45 || Nat.eqb n 95.

Fixpoint base64url (s : string) : bool :=
  match s with
  | EmptyString => true
  | String c rest => base64url_char c && base64url rest
  end.

(** What the documentation of [jsonwebtoken] says of [decode]: it returns
    the decoded payload without verifying if the signature is valid.  On
    two compact tokens that differ in the signature segment alone it ends
    alike, with the same header and payload. *)
Definition decodes_without_verifying
  (decode : JValue -> Outcome (option DecodedJwt)) : Prop :=
  forall signed s1 s2,
    base64url s1 = true -> base64url s2 = true ->
    match decode (JStr (signed ++ "." ++ s1)),
          decode (JStr (signed ++ "." ++ s2)) with
    | Returned (Some d1), Returned (Some d2) =>
        header d1 = header d2 /\ payload d1 = payload d2
    | Returned None, Returned None => True
    | Thrown e1, Thrown e2 => e1 = e2
    | _, _ => False
    end.

Section Handler.

Variable StringToNumber : string -> option Q.
Variable ToString : JValue -> Outcome string.
(** [jsonwebtoken]'s [decode] with [{ complete: true }]: it throws, or
    returns [null], or returns header, payload and signature. *)
Variable jwt_decode : JValue -> Outcome (option DecodedJwt).

(** [payload.exp && payload.exp < Date.now() / 1000] *)
Definition expired (pl : JValue) (now : Z) : Outcome bool :=
  match get pl "exp" with
  | None => Returned false
  | Some e =>
      if truthy e
      then lt_number StringToNumber ToString e (seconds now)
      else Returned false
  end.

Definition sessionData (pl : JValue) (now : Z) : JValue :=
  obj [ ("userId", js_or (get pl "sub") (get pl "oid"));
        ("email", js_or (get pl "email") (get pl "preferred_username"));
        ("name", get pl "name");
        ("authenticatedAt", Some (JNum (inject_Z now))) ].

Definition session_cookie (p : Process) (pl : JValue) (now : Z) : Cookie :=
  {| cookie_name := "session";
     cookie_value := sessionData pl now;
     httpOnly := true;
     secure := env_is p "production";
     sameSite := "lax";
     maxAge := 24 * 60 * 60 * 1000 |}.

Definition success_body (pl : JValue) : JValue :=
  obj [ ("success", Some (JBool true));
        ("message", Some (JStr "Session initialized successfully"));
        ("user", Some (obj
           [ ("name", get pl "name");
             ("email", js_or (get pl "email") (get pl "preferred_username"));
             ("username", js_or (get pl "preferred_username") (get pl "email")) ])) ].

(** The body of the [try] block.  Everything that can throw in it comes
    before the first effect, so it either throws or yields the process and
    the response.  [now] is the value of [Date.now()] (milliseconds) during
    the call. *)
Definition try_block (p : Process) (now : Z) (tok : JValue)
  : Outcome (Process * Response) :=
  (decoded <- jwt_decode tok ;;
   match decoded with
   | None => Returned (p, error_response 401 "Invalid session token format")
   | Some d =>
       if negb (truthy (payload d)) then
         Returned (p, error_response 401 "Invalid session token format")
       else
         let pl := payload d in
         is_expired <- expired pl now ;;
         if is_expired then
           Returned (p, error_response 401 "Session token expired")
         else if negb (strict_eq_str (get pl "type") "session_init") then
           Returned (p, error_response 401 "Invalid token type")
         else
           Returned
             (log (LogInfo "Session initialized for user:"
                     (js_or (get pl "name") (get pl "email"))) p,
              {| status := 200;
                 cookies := [session_cookie p pl now];
                 body := success_body pl |})
   end)%outcome.

(** The [catch] block. *)
Definition catch_block (p : Process) (error : JsError) : Process * Response :=
  (log (LogError "Session initialization error:" error) p,
   {| status := 401;
      cookies := [];
      body := obj [ ("error", Some (JStr "Session initialization failed"));
                    ("details", if env_is p "development"
                                then Some (JStr (err_message error))
                                else None) ] |}).

(** The handler of [POST /api/web/initialize-session]. *)
Definition initialize_session (p : Process) (now : Z) (req : Request)
  : Process * Response :=
  match sessionToken req with
  | None => (p, error_response 400 "Session token required")
  | Some tok =>
      if negb (truthy tok) then
        (p, error_response 400 "Session token required")
      else
        match try_block p now tok with
        | Returned out => out
        | Thrown error => catch_block p error
        end
  end.

(** The error-handling middleware, [app.use((err, req, res, next) => ...)]. *)
Definition error_middleware (p : Process) (err : JsError) : Process * Response :=
  (log (LogError "Server error:" err) p,
   {| status := 500;
      cookies := [];
      body := obj [ ("error", Some (JStr "Internal server error"));
                    ("message", if env_is p "development"
                                then Some (JStr (err_message err))
                                else None) ] |}).

(** [POST /api/web/initialize-session] behind the body parsers: an error
    of theirs goes to the error-handling middleware. *)
Definition post_initialize_session (p : Process) (now : Z) (posted : Posted)
  : Process * Response :=
  match posted with
  | Refused err => error_middleware p err
  | Parsed req => initialize_session p now req
  end.

(** The ways a call can go, each with what it leaves behind: the paths of
    the handler, from top to bottom. *)
Inductive Answer (p : Process) (now : Z) (req : Request)
  : Process * Response -> Prop :=
| NoToken :
    truthy_val (sessionToken req) = false ->
    Answer p now req (p, error_response 400 "Session token required")
| Crashed tok error :
    sessionToken req = Some tok -> truthy tok = true ->
    try_block p now tok = Thrown error ->
    Answer p now req (catch_block p error)
| NotDecoded tok :
    sessionToken req = Some tok -> truthy tok = true ->
    jwt_decode tok = Returned None ->
    Answer p now req (p, error_response 401 "Invalid session token format")
| NoPayload tok d :
    sessionToken req = Some tok -> truthy tok = true ->
    jwt_decode tok = Returned (Some d) ->
    truthy (payload d) = false ->
    Answer p now req (p, error_response 401 "Invalid session token format")
| Expired tok d :
    sessionToken req = Some tok -> truthy tok = true ->
    jwt_decode tok = Returned (Some d) ->
    truthy (payload d) = true ->
    expired (payload d) now = Returned true ->
    Answer p now req (p, error_response 401 "Session token expired")
| WrongType tok d :
    sessionToken req = Some tok -> truthy tok = true ->
    jwt_decode tok = Returned (Some d) ->
    truthy (payload d) = true ->
    expired (payload d) now = Returned false ->
    strict_eq_str (get (payload d) "type") "session_init" = false ->
    Answer p now req (p, error_response 401 "Invalid token type")
| Redeemed tok d :
    sessionToken req = Some tok -> truthy tok = true ->
    jwt_decode tok = Returned (Some d) ->
    truthy (payload d) = true ->
    expired (payload d) now = Returned false ->
    strict_eq_str (get (payload d) "type") "session_init" = true ->
    Answer p now req
      (log (LogInfo "Session initialized for user:"
              (js_or (get (payload d) "name") (get (payload d) "email"))) p,
       {| status := 200;
          cookies := [session_cookie p (payload d) now];
          body := success_body (payload d) |}).

(** A run of the server: the calls are served one after the other, each
    at its own instant. *)
Fixpoint serve (p : Process) (calls : list (Z * Request))
  : Process * list Response :=
  match calls with
  | [] => (p, [])
  | (now, req) :: rest =>
      let (p1, r) := initialize_session p now req in
      let (p2, rs) := serve p1 rest in
      (p2, r :: rs)
  end.

End Handler.

End Server.

(** ** The handoff controller (client) *)

Module Client.

Record FetchRequest : Type := mkFetch {
  url : string;
  method : string;
  credentials : string;
  request_body : JValue
}.

(** A response: its [ok] flag and the outcome of [response.json()]. *)
Record HttpResponse : Type := mkHttp {
  ok : bool;
  json : Outcome JValue
}.

(** A settled [fetch]: the promise rejects (network error) or resolves. *)
Inductive FetchResult : Type :=
| FetchRejected (e : JsError)
| FetchResolved (r : HttpResponse).

(** MSAL's authentication result, the fields the page displays. *)
Record TokenResponse : Type := mkTokenResponse {
  tokenType : string;
  expiresOn : option Z;
  scopes : option (list string)
}.

Record Account : Type := mkAccount {
  username : JsVal;
  name : JsVal;
  email : JsVal
}.

(** The text of the debug panel is the JSON of this record. *)
Record DebugData : Type := mkDebug {
  dbg_message : string;
  dbg_name : string;
  dbg_stack : string;
  dbg_timestamp : Z
}.

Inductive Callback : Type :=
| CallShowUnauthenticatedView.

Inductive LogLine : Type :=
| ConsoleLog (text : string)
| ConsoleError (text : string) (e : JsError)
| ConsoleErrorData (text : string) (data : JValue).

(** The page: [window.location]; the elements of [elements], which are
    taken to exist, with their [textContent] and [style.display] by
    element key; the status indicator's [error] class; the module variable
    [tokenResponse]; the console, pending timers and the requests sent. *)
Record Page : Type := mkPage {
  pathname : string;
  search : string;
  hash : string;
  textContent : string -> string;
  display : string -> string;
  debugContent : option DebugData;
  indicator_error : bool;
  tokenResponse : option TokenResponse;
  console : list LogLine;
  timers : list (Callback * Z);
  requests : list FetchRequest
}.

Definition upd (f : string -> string) (k v : string) : string -> string :=
  fun k' => if String.eqb k k' then v else f k'.

Definition set_text (k v : string) (pg : Page) : Page :=
  mkPage (pathname pg) (search pg) (hash pg) (upd (textContent pg) k v)
         (display pg) (debugContent pg) (indicator_error pg)
         (tokenResponse pg) (console pg) (timers pg) (requests pg).

Definition set_display (k v : string) (pg : Page) : Page :=
  mkPage (pathname pg) (search pg) (hash pg) (textContent pg)
         (upd (display pg) k v) (debugContent pg) (indicator_error pg)
         (tokenResponse pg) (console pg) (timers pg) (requests pg).

Definition set_debugContent (d : DebugData) (pg : Page) : Page :=
  mkPage (pathname pg) (search pg) (hash pg) (textContent pg)
         (display pg) (Some d) (indicator_error pg)
         (tokenResponse pg) (console pg) (timers pg) (requests pg).

Definition set_indicator_error (b : bool) (pg : Page) : Page :=
  mkPage (pathname pg) (search pg) (hash pg) (textContent pg)
         (display pg) (debugContent pg) b
         (tokenResponse pg) (console pg) (timers pg) (requests pg).

Definition set_tokenResponse (t : TokenResponse) (pg : Page) : Page :=
  mkPage (pathname pg) (search pg) (hash pg) (textContent pg)
         (display pg) (debugContent pg) (indicator_error pg)
         (Some t) (console pg) (timers pg) (requests pg).

Definition console_write (l : LogLine) (pg : Page) : Page :=
  mkPage (pathname pg) (search pg) (hash pg) (textContent pg)
         (display pg) (debugContent pg) (indicator_error pg)
         (tokenResponse pg) (console pg ++ [l]) (timers pg) (requests pg).

Definition setTimeout (cb : Callback) (delay : Z) (pg : Page) : Page :=
  mkPage (pathname pg) (search pg) (hash pg) (textContent pg)
         (display pg) (debugContent pg) (indicator_error pg)
         (tokenResponse pg) (console pg) (timers pg ++ [(cb, delay)]) (requests pg).

Definition send (rq : FetchRequest) (pg : Page) : Page :=
  mkPage (pathname pg) (search pg) (hash pg) (textContent pg)
         (display pg) (debugContent pg) (indicator_error pg)
         (tokenResponse pg) (console pg) (timers pg) (requests pg ++ [rq]).

(** The location after a successful
    [window.history.replaceState({}, document.title, pathname + hash)]:
    path and fragment as they were, no query. *)
Definition without_query (pg : Page) : Page :=
  mkPage (pathname pg) EmptyString (hash pg) (textContent pg)
         (display pg) (debugContent pg) (indicator_error pg)
         (tokenResponse pg) (console pg) (timers pg) (requests pg).


(** What the address is made of. *)
Definition location (pg : Page) : string * string * string :=
  (pathname pg, search pg, hash pg).

(** *** A state-and-exception monad for the page scripts *)

Definition Script (A : Type) : Type := Page -> Page * Outcome A.

Definition ret {A} (a : A) : Script A := fun pg => (pg, Returned a).

Definition throw {A} (e : JsError) : Script A := fun pg => (pg, Thrown e).

Definition bind {A B} (m : Script A) (k : A -> Script B) : Script B :=
  fun pg =>
    match m pg with
    | (pg1, Returned a) => k a pg1
    | (pg1, Thrown e) => (pg1, Thrown e)
    end.

Definition effect (f : Page -> Page) : Script unit :=
  fun pg => (f pg, Returned tt).

Definition read {A} (f : Page -> A) : Script A :=
  fun pg => (pg, Returned (f pg)).

(** An evaluation that ended with [o]; [await] of a promise settled with
    [o]. *)
Definition await {A} (o : Outcome A) : Script A := fun pg => (pg, o).

Definition try_catch {A} (m : Script A) (handler : JsError -> Script A)
  : Script A :=
  fun pg =>
    match m pg with
    | (pg1, Returned a) => (pg1, Returned a)
    | (pg1, Thrown e) => handler e pg1
    end.

(** [try { m } finally { f }] for a [finally] block that does not throw. *)
Definition finally {A} (m : Script A) (f : Page -> Page) : Script A :=
  fun pg => let (pg1, o) := m pg in (f pg1, o).

(** A script that leaves the location alone, however it ends. *)
Definition keeps_location {A} (m : Script A) : Prop :=
  forall pg, location (fst (m pg)) = location pg.

Declare Scope script_scope.
Delimit Scope script_scope with script.
Notation "x <- m ;; k" := (bind m (fun x => k))
  (at level 100, m at next level, right associativity) : script_scope.
Notation "m ;; k" := (bind m (fun _ => k))
  (at level 100, right associativity) : script_scope.
Open Scope script_scope.

(** *** String helpers *)

Definition to_upper (c : ascii) : ascii :=
  let n := nat_of_ascii c in
  if andb (Nat.leb 97 n) (Nat.leb n 122) then ascii_of_nat (n - 32) else c.

Fixpoint toUpperCase (s : string) : string :=
  match s with
  | EmptyString => EmptyString
  | String c rest => String (to_upper c) (toUpperCase rest)
  end.

(** [s.split(' ').map(n => n[0]).join('')]: the first character of every
    non-empty piece between spaces. [fresh] tells whether the next
    character starts a piece. *)
Fixpoint first_letters (fresh : bool) (s : string) : string :=
  match s with
  | EmptyString => EmptyString
  | String c rest =>
      if Ascii.eqb c " "%char then first_letters true rest
      else if fresh then String c (first_letters false rest)
      else first_letters false rest
  end.

(** [getInitials] on a string (of ASCII characters). *)
Definition initials (s : string) : string :=
  substring 0 2 (toUpperCase (first_letters true s)).

Section Controller.

(** The engine's [ToString] on values that are not strings. *)
Variable ToString : JValue -> Outcome string.
(** The stack text the engine attaches to an error of a given name and
    message raised by the script. *)
Variable capture_stack : string -> string -> string.
(** [new Date(t).toLocaleString()]. *)
Variable toLocaleString : Z -> string.
(** The instant read by [new Date()]. *)
Variable Date_now : Z.
(** The network and MSAL. *)
Variable fetch : FetchRequest -> FetchResult.
Variable acquireTokenSilent : Account -> Outcome TokenResponse.

Definition new_Error (msg : string) : JsError :=
  {| err_name := "Error"; err_message := msg;
     err_stack := capture_stack "Error" msg |}.

Definition TypeError (msg : string) : JsError :=
  {| err_name := "TypeError"; err_message := msg;
     err_stack := capture_stack "TypeError" msg |}.

Definition SecurityError (msg : string) : JsError :=
  {| err_name := "SecurityError"; err_message := msg;
     err_stack := capture_stack "SecurityError" msg |}.

(** A value turned into text, as assigning it to [textContent] or passing
    it to [new Error] does. *)
Definition text_of (v : JValue) : Script string :=
  await (to_text ToString v).

(** [v.k] where [v] may be [undefined] or [null], on which the read throws. *)
Definition read_property (v : JsVal) (k : string) : Script JsVal :=
  match v with
  | None =>
      throw (TypeError ("Cannot read properties of undefined (reading '" ++ k ++ "')"))
  | Some JNull =>
      throw (TypeError ("Cannot read properties of null (reading '" ++ k ++ "')"))
  | Some x => ret (get x k)
  end.

(** [window.history.replaceState({}, document.title, cleanUrl)] with
    [cleanUrl = window.location.pathname + window.location.hash].  The text
    is resolved against the current address: a path that begins with two
    slashes reads as a scheme-relative address of another origin, which
    [replaceState] refuses with a [SecurityError]. *)
Definition replaceState_cleanUrl : Script unit :=
  fun pg =>
    if prefix "//" (pathname pg) then
      (pg, Thrown (SecurityError "Failed to execute 'replaceState' on 'History'"))
    else (without_query pg, Returned tt).

Definition showLoading (show : bool) : Page -> Page :=
  set_display "loading" (if show then "block" else "none").

Definition showAuthenticatedView (pg : Page) : Page :=
  showLoading false
    (set_display "authenticatedView" "block"
       (set_display "unauthenticatedView" "none" pg)).

Definition showUnauthenticatedView (pg : Page) : Page :=
  showLoading false
    (set_display "authenticatedView" "none"
       (set_display "unauthenticatedView" "block" pg)).

(** A timer that has come due. *)
Definition fire (cb : Callback) : Page -> Page :=
  match cb with
  | CallShowUnauthenticatedView => showUnauthenticatedView
  end.

Definition updateStatus (text : string) (isError : bool) (pg : Page) : Page :=
  set_indicator_error isError (set_text "statusText" text pg).

Definition showDebugInfo (error : JsError) (pg : Page) : Page :=
  set_display "debugInfo" "block"
    (set_debugContent
       {| dbg_message := if String.eqb (err_message error) EmptyString
                         then "Unknown error" else err_message error;
          dbg_name := err_name error;
          dbg_stack := err_stack error;
          dbg_timestamp := Date_now |} pg).

Definition getInitials (v : JValue) : Script string :=
  match v with
  | JStr s => ret (initials s)
  | _ => throw (TypeError "name.split is not a function")
  end.

Definition show_token_info (t : TokenResponse) (pg : Page) : Page :=
  set_text "tokenScopes"
    (match scopes t with
     | Some l => String.concat ", " l
     | None => "N/A"
     end)
    (set_text "tokenExpiry"
       (match expiresOn t with
        | Some d => toLocaleString d
        | None => "N/A"
        end)
       (set_text "tokenType"
          (if String.eqb (tokenType t) EmptyString then "Bearer" else tokenType t)
          pg)).

Definition handleAuthenticatedUser (account : Account) : Script unit :=
  shown_name <- text_of (or_literal (name account) "User") ;;
  effect (set_text "userName" shown_name) ;;
  shown_email <- text_of (or_literal (js_or (username account) (email account))
                            "No email") ;;
  effect (set_text "userEmail" shown_email) ;;
  letters <- getInitials (or_literal (js_or (name account) (username account)) "U") ;;
  effect (set_text "userInitials" letters) ;;
  try_catch
    (current <- read tokenResponse ;;
     match current with
     | Some t => effect (show_token_info t)
     | None =>
         t <- await (acquireTokenSilent account) ;;
         effect (set_tokenResponse t) ;;
         effect (show_token_info t)
     end)
    (fun error =>
       effect (console_write (ConsoleError "Failed to acquire token for display:" error))) ;;
  effect showAuthenticatedView ;;
  effect (updateStatus "Authenticated" false).

Definition exchange_request (sessionToken : string) : FetchRequest :=
  {| url := "/api/web/initialize-session";
     method := "POST";
     credentials := "include";
     request_body := obj [("sessionToken", Some (JStr sessionToken))] |}.

(** [handleSessionTokenExchange] up to its first suspension, the [await]
    on [fetch]: the page as it stands while the request is in flight. *)
Definition exchange_started (sessionToken : string) : Script unit :=
  effect (showLoading true) ;;
  effect (updateStatus "Initializing session from native app..." false) ;;
  effect (send (exchange_request sessionToken)).

(** The [try] block when [fetch] has resolved, from its resumption to the
    first look at the response: the two statements that clean the
    address. *)
Definition exchange_answered : Script unit := replaceState_cleanUrl.

(** The [try] block from [if (response.ok)] on: [response.json()] is
    called and awaited, and its result dealt with. *)
Definition exchange_parsed (response : HttpResponse) : Script unit :=
  if ok response then
    data <- await (json response) ;;
    effect (console_write (ConsoleLog "Session initialized successfully from native app")) ;;
    user <- read_property (Some data) "user" ;;
    user_email <- read_property user "email" ;;
    user_username <- read_property user "username" ;;
    user_name <- read_property user "name" ;;
    handleAuthenticatedUser
      {| username := js_or (js_or user_email user_username) user_name;
         name := user_name;
         email := user_email |} ;;
    effect (updateStatus "Authenticated via native app" false)
  else
    errorData <- try_catch (await (json response))
                   (fun _ => ret (obj [("error", Some (JStr "Session initialization failed"))])) ;;
    effect (console_write (ConsoleErrorData "Session token exchange failed:" errorData)) ;;
    error <- read_property (Some errorData) "error" ;;
    message <- text_of (or_literal error "Session initialization failed") ;;
    throw (new_Error message).

(** The rest of the [try] block, resumed when [fetch] has settled. *)
Definition exchange_settled (result : FetchResult) : Script unit :=
  match result with
  | FetchRejected e => throw e
  | FetchResolved response => exchange_answered ;; exchange_parsed response
  end.

(** The [catch] block. *)
Definition exchange_failed (error : JsError) : Script unit :=
  effect (console_write (ConsoleError "Session token exchange error:" error)) ;;
  effect (updateStatus "Session initialization failed, redirecting to login..." true) ;;
  effect (showDebugInfo error) ;;
  effect (setTimeout CallShowUnauthenticatedView 2000).

Definition handleSessionTokenExchange (sessionToken : string) : Script unit :=
  finally
    (try_catch
       (exchange_started sessionToken ;;
        exchange_settled (fetch (exchange_request sessionToken)))
       exchange_failed)
    (showLoading false).

End Controller.

End Client.

(** ** The two sides put together *)

Module Handoff.

Import Server Client.

(** A server response as the page's [fetch] sees it: [response.ok] for a
    status from 200 to 299, and [response.json()] giving the body back. *)
Definition http_reply (r : Response) : HttpResponse :=
  {| ok := (200 <=? status r) && (status r <=? 299);
     json := Returned (body r) |}.

(** A network that delivers every exchange request to the endpoint:
    [express.json()] parses the body and the handler reads its
    [sessionToken]. *)
Definition deliver (endpoint : Request -> Response) (rq : FetchRequest)
  : FetchResult :=
  FetchResolved
    (http_reply (endpoint {| sessionToken := get (request_body rq) "sessionToken" |})).


End Handoff.

(** ** Sample tokens

    Compact JWTs and the value [jwt.decode] returns for each (the base64url
    text of the header and of the claims, then the signature segment). *)

Module Sample.

Import Server.

(** [{"alg":"HS256","typ":"JWT"}] *)
Definition jwt_header : string := "eyJhbGciOiJIUzI1NiIsInR5cCI6IkpXVCJ9".

Definition header_hs256 : JValue :=
  JObj [("alg", JStr "HS256"); ("typ", JStr "JWT")].

(** [{"type":"session_init","sub":"user-id-123","name":"Test User",
      "email":"test.user@example.com","exp":1700000060,"iat":1700000000,
      "jti":"tok-1"}] *)
Definition claims_session : JValue :=
  JObj [ ("type", JStr "session_init"); ("sub", JStr "user-id-123");
         ("name", JStr "Test User"); ("email", JStr "test.user@example.com");
         ("exp", JNum (inject_Z 1700000060)); ("iat", JNum (inject_Z 1700000000));
         ("jti", JStr "tok-1") ].

Definition segment_session : string :=
  "eyJ0eXBlIjoic2Vzc2lvbl9pbml0Iiwic3ViIjoidXNlci1pZC0xMjMiLCJuYW1lIjoiVGVzdCBVc2VyIiwiZW1haWwiOiJ0ZXN0LnVzZXJAZXhhbXBsZS5jb20iLCJleHAiOjE3MDAwMDAwNjAsImlhdCI6MTcwMDAwMDAwMCwianRpIjoidG9rLTEifQ".

(** [{"type":"access","sub":"user-id-123","name":"Test User",
      "exp":1700000060,"jti":"tok-2"}] *)
Definition claims_access : JValue :=
  JObj [ ("type", JStr "access"); ("sub", JStr "user-id-123");
         ("name", JStr "Test User"); ("exp", JNum (inject_Z 1700000060));
         ("jti", JStr "tok-2") ].

Definition segment_access : string :=
  "eyJ0eXBlIjoiYWNjZXNzIiwic3ViIjoidXNlci1pZC0xMjMiLCJuYW1lIjoiVGVzdCBVc2VyIiwiZXhwIjoxNzAwMDAwMDYwLCJqdGkiOiJ0b2stMiJ9".

(** [{"type":"session_init","sub":"user-id-123","name":"Test User",
      "email":"test.user@example.com","jti":"tok-3"}] *)
Definition claims_no_exp : JValue :=
  JObj [ ("type", JStr "session_init"); ("sub", JStr "user-id-123");
         ("name", JStr "Test User"); ("email", JStr "test.user@example.com");
         ("jti", JStr "tok-3") ].

Definition segment_no_exp : string :=
  "eyJ0eXBlIjoic2Vzc2lvbl9pbml0Iiwic3ViIjoidXNlci1pZC0xMjMiLCJuYW1lIjoiVGVzdCBVc2VyIiwiZW1haWwiOiJ0ZXN0LnVzZXJAZXhhbXBsZS5jb20iLCJqdGkiOiJ0b2stMyJ9".

Definition compact (claims sig : string) : string :=
  jwt_header ++ "." ++ claims ++ "." ++ sig.

(** The session token with an empty signature segment, and the same claims
    under a signature nobody issued. *)
Definition token_unsigned : string := compact segment_session EmptyString.
Definition token_forged : string := compact segment_session "Zm9yZ2Vk".
Definition token_access : string := compact segment_access EmptyString.
Definition token_no_exp : string := compact segment_no_exp EmptyString.

(** A JWT header followed by the base64url of [not json]: [jwt.decode]
    throws the [SyntaxError] of [JSON.parse]. *)
Definition token_broken : string := compact "bm90IGpzb24" EmptyString.

Definition not_json : JsError :=
  {| err_name := "SyntaxError";
     err_message := "Unexpected token o in JSON at position 1";
     err_stack := "SyntaxError: Unexpected token o in JSON at position 1" |}.

(** The text of a compact token before its last dot, which is what a
    signature is computed over, paired with the signature segment. *)
Fixpoint last_dot (s : string) : option (string * string) :=
  match s with
  | EmptyString => None
  | String c rest =>
      match last_dot rest with
      | Some (signed, sig) => Some (String c signed, sig)
      | None =>
          if Ascii.eqb c "."%char then Some (EmptyString, rest) else None
      end
  end.

Definition signed_part (claims : string) : string :=
  jwt_header ++ "." ++ claims.

(** Header and payload of the sample tokens, by their signed part. *)
Definition decode_table : list (string * (JValue * JValue)) :=
  [ (signed_part segment_session, (header_hs256, claims_session));
    (signed_part segment_access, (header_hs256, claims_access));
    (signed_part segment_no_exp, (header_hs256, claims_no_exp)) ].

Fixpoint find_token (s : string) (table : list (string * (JValue * JValue)))
  : option (JValue * JValue) :=
  match table with
  | [] => None
  | (t, d) :: rest => if String.eqb t s then Some d else find_token s rest
  end.

(** [jwt.decode] on the sample tokens, under any signature segment;
    anything else here is not a JWT. *)
Definition jwt_decode (tok : JValue) : Outcome (option DecodedJwt) :=
  match tok with
  | JStr s =>
      match last_dot s with
      | Some (signed, sig) =>
          if negb (base64url sig) then Returned None
          else if String.eqb signed (signed_part "bm90IGpzb24")
          then Thrown not_json
          else Returned
                 (option_map (fun hp => mkDecoded (fst hp) (snd hp) sig)
                    (find_token signed decode_table))
      | None => Returned None
      end
  | _ => Returned None
  end.

(** No sample coerces a string to a number, or an array to text. *)
Definition StringToNumber (_ : string) : option Q := None.
Definition ToString (_ : JValue) : Outcome string := Returned "[object Object]".

Definition exchange : Process -> Z -> Request -> Process * Response :=
  initialize_session StringToNumber ToString jwt_decode.

Definition production : Process :=
  {| NODE_ENV := Some "production"; console := [] |}.

Definition present (tok : string) : Request :=
  {| sessionToken := Some (JStr tok) |}.

(** One second before, the very instant of, and one second after the [exp]
    of the sample claims, in milliseconds. *)
Definition before_exp : Z := 1700000059000.
Definition at_exp : Z := 1700000060000.
Definition after_exp : Z := 1700000061000.

(** The page as the native app opens it. *)
Definition landing (tok : string) : Client.Page :=
  {| Client.pathname := "/";
     Client.search := "?session_token=" ++ tok;
     Client.hash := EmptyString;
     Client.textContent := fun _ => EmptyString;
     Client.display := fun _ => EmptyString;
     Client.debugContent := None;
     Client.indicator_error := false;
     Client.tokenResponse := None;
     Client.console := [];
     Client.timers := [];
     Client.requests := [] |}.

Definition capture_stack (name message : string) : string :=
  name ++ ": " ++ message ++ " at handleSessionTokenExchange (app.js)".

Definition toLocaleString (_ : Z) : string := "11/14/2023, 10:14:20 PM".

Definition failed_to_fetch : JsError :=
  {| err_name := "TypeError";
     err_message := "Failed to fetch";
     err_stack := "TypeError: Failed to fetch" |}.

(** The network is down: [fetch] rejects. *)
Definition offline (_ : Client.FetchRequest) : Client.FetchResult :=
  Client.FetchRejected failed_to_fetch.

(** The network reaches the endpoint, in production, at instant [now]. *)
Definition online (now : Z) : Client.FetchRequest -> Client.FetchResult :=
  Handoff.deliver (fun req => snd (exchange production now req)).

(** MSAL has no cached account for a session opened by handoff. *)
Definition acquireTokenSilent (_ : Client.Account)
  : Outcome Client.TokenResponse :=
  Thrown {| err_name := "BrowserAuthError";
            err_message := "no_account_error";
            err_stack := "BrowserAuthError: no_account_error" |}.

(** The controller on a page whose clock reads [after_exp]. *)
Definition handoff (fetch : Client.FetchRequest -> Client.FetchResult)
  : string -> Client.Script unit :=
  Client.handleSessionTokenExchange ToString capture_stack toLocaleString
    after_exp fetch acquireTokenSilent.

End Sample.

(** ** The other routes of the server

    [validateToken] and the routes behind it, the health and configuration
    routes, with the process environment they read. *)

Module Api.

(** [process.env], the variables the server reads. *)
Record Environment : Type := mkEnvironment {
  NODE_ENV : option string;
  TENANT_ID : option string;
  CLIENT_ID : option string;
  AUTHORITY : option string;
  REDIRECT_URI : option string;
  API_SCOPES : option string;
  PORT : option string
}.

Inductive Line : Type :=
| Log (args : list JsVal)
| Error (text : string) (error : JsError).

Record Node : Type := mkNode {
  env : Environment;
  console : list Line
}.

(** The headers of a request, of which the middleware reads
    [authorization]. *)
Record ApiRequest : Type := mkApiRequest {
  authorization : option string
}.

(** What a middleware does with a request: it answers, or it calls
    [next()] after setting [req.user]. *)
Inductive Verdict : Type :=
| Responded (r : Server.Response)
| Next (user : JValue).

(** An environment variable used as a condition: unset or empty is falsy. *)
Definition is_set (v : option string) : bool :=
  match v with
  | Some s => negb (String.eqb s EmptyString)
  | None => false
  end.

(** [v || fallback] on an environment variable. *)
Definition or_else (v : option string) (fallback : string) : string :=
  match v with
  | Some s => if String.eqb s EmptyString then fallback else s
  | None => fallback
  end.

(** A variable inside a template literal. *)
Definition interpolate (v : option string) : string :=
  match v with
  | Some s => s
  | None => "undefined"
  end.

Definition log (l : Line) (n : Node) : Node :=
  {| env := env n; console := console n ++ [l] |}.

(** [s.substring(k)] *)
Fixpoint skip (k : nat) (s : string) : string :=
  match k, s with
  | O, _ => s
  | S k', String _ rest => skip k' rest
  | S _, EmptyString => EmptyString
  end.

(** *** [split] and [trim] *)

(** [s.split(sep)] for a separator of one character. *)
Fixpoint split (sep : ascii) (s : string) : list string :=
  match s with
  | EmptyString => [EmptyString]
  | String c rest =>
      if Ascii.eqb c sep then EmptyString :: split sep rest
      else match split sep rest with
           | piece :: pieces => String c piece :: pieces
           | [] => [String c EmptyString]
           end
  end.

(** The white space and line terminators of the ASCII range: tab, line
    feed, vertical tab, form feed, carriage return, space. *)
Definition is_space (c : ascii) : bool :=
  let n := nat_of_ascii c in
  (Nat.leb 9 n && Nat.leb n 13) || Nat.eqb n 32.

Fixpoint trimStart (s : string) : string :=
  match s with
  | EmptyString => EmptyString
  | String c rest => if is_space c then trimStart rest else s
  end.

Fixpoint trimEnd (s : string) : string :=
  match s with
  | EmptyString => EmptyString
  | String c rest =>
      match trimEnd rest with
      | EmptyString => if is_space c then EmptyString else String c EmptyString
      | kept => String c kept
      end
  end.

(** [s.trim()] on a text of ASCII characters, whose white space and line
    terminators are the six of [is_space]. *)
Definition trim (s : string) : string := trimEnd (trimStart s).

Fixpoint count (c : ascii) (s : string) : nat :=
  match s with
  | EmptyString => O
  | String c' rest => (if Ascii.eqb c' c then 1 else 0) + count c rest
  end.

(** A text that begins with white space, one that ends with it, and one
    made of nothing else. *)
Definition starts_with_space (s : string) : bool :=
  match s with
  | EmptyString => false
  | String c _ => is_space c
  end.

Fixpoint ends_with_space (s : string) : bool :=
  match s with
  | EmptyString => false
  | String c rest =>
      match rest with
      | EmptyString => is_space c
      | String _ _ => ends_with_space rest
      end
  end.

Fixpoint all_space (s : string) : bool :=
  match s with
  | EmptyString => true
  | String c rest => is_space c && all_space rest
  end.

(** [process.env.API_SCOPES ? process.env.API_SCOPES.split(',').map(s =>
    s.trim()) : ['User.Read', 'profile', 'openid']] *)
Definition scopes (e : Environment) : list string :=
  match API_SCOPES e with
  | Some s =>
      if String.eqb s EmptyString then ["User.Read"; "profile"; "openid"]
      else map trim (split ","%char s)
  | None => ["User.Read"; "profile"; "openid"]
  end.

Section Routes.

Variable StringToNumber : string -> option Q.
Variable ToString : JValue -> Outcome string.
Variable jwt_decode : JValue -> Outcome (option Server.DecodedJwt).
(** The stack text the engine attaches to an error it raises. *)
Variable capture_stack : string -> string -> string.
(** [new Date(t).toISOString()] *)
Variable toISOString : Z -> string.

(** [payload.exp && payload.exp < Date.now() / 1000] on a payload that
    may be [null], on which the read throws. *)
Definition token_expired (pl : JValue) (now : Z) : Outcome bool :=
  match pl with
  | JNull =>
      Thrown {| err_name := "TypeError";
                err_message := "Cannot read properties of null (reading 'exp')";
                err_stack := capture_stack "TypeError"
                               "Cannot read properties of null (reading 'exp')" |}
  | _ => Server.expired StringToNumber ToString pl now
  end.

(** The [try] block of [validateToken]. *)
Definition validate_try (n : Node) (now : Z) (token : string)
  : Outcome (Node * Verdict) :=
  (decoded <- jwt_decode (JStr token) ;;
   match decoded with
   | None => Returned (n, Responded (Server.error_response 401 "Invalid token format"))
   | Some d =>
       let pl := Server.payload d in
       late <- token_expired pl now ;;
       if late then
         Returned (n, Responded (Server.error_response 401 "Token expired"))
       else
         Returned
           (log (Log [ Some (JStr "Token received - Issuer:"); get pl "iss";
                       Some (JStr "Audience:"); get pl "aud" ]) n,
            Next pl)
   end)%outcome.

(** The [catch] block of [validateToken]. *)
Definition validate_catch (n : Node) (error : JsError) : Node * Verdict :=
  (log (Error "Token validation exception:" error) n,
   Responded
     {| Server.status := 401;
        Server.cookies := [];
        Server.body := obj [ ("error", Some (JStr "Token validation failed"));
                             ("details", Some (JStr (err_message error))) ] |}).

(** The middleware [validateToken]. *)
Definition validateToken (n : Node) (now : Z) (req : ApiRequest)
  : Node * Verdict :=
  match authorization req with
  | None => (n, Responded (Server.error_response 401 "No token provided"))
  | Some authHeader =>
      if String.eqb authHeader EmptyString || negb (prefix "Bearer " authHeader)
      then (n, Responded (Server.error_response 401 "No token provided"))
      else
        match validate_try n now (skip 7 authHeader) with
        | Returned out => out
        | Thrown error => validate_catch n error
        end
  end.

(** [res.json(value)] *)
Definition ok_json (value : JValue) : Server.Response :=
  {| Server.status := 200; Server.cookies := []; Server.body := value |}.

(** [GET /api/user/profile], behind [validateToken]; [user] is [req.user],
    the payload the middleware attached, which is not [null]. *)
Definition profile (user : JValue) : Server.Response :=
  ok_json
    (obj [ ("message", Some (JStr "Successfully authenticated!"));
           ("user", Some (obj
              [ ("name", Some (or_literal (get user "name") "Unknown"));
                ("username",
                 Some (or_literal (js_or (get user "preferred_username")
                                         (get user "upn")) "Unknown"));
                ("email",
                 Some (or_literal (js_or (get user "email")
                                         (get user "preferred_username")) "Unknown"));
                ("oid", get user "oid");
                ("tid", get user "tid") ]));
           ("tokenClaims", Some user) ]).

Definition demo_item (id : Z) (item status : string) : JValue :=
  obj [ ("id", Some (JNum (inject_Z id))); ("item", Some (JStr item));
        ("status", Some (JStr status)) ].

(** [GET /api/data], behind [validateToken]. *)
Definition data (now : Z) (user : JValue) : Server.Response :=
  ok_json
    (obj [ ("message", Some (JStr "This is protected data from the backend"));
           ("timestamp", Some (JStr (toISOString now)));
           ("user", js_or (get user "preferred_username") (get user "name"));
           ("data", Some (JArr [ demo_item 1 "Demo Item 1" "Active";
                                 demo_item 2 "Demo Item 2" "Pending";
                                 demo_item 3 "Demo Item 3" "Completed" ])) ]).

(** [POST /api/validate-token], behind [validateToken]. *)
Definition validate_token (user : JValue) : Server.Response :=
  ok_json
    (obj [ ("valid", Some (JBool true));
           ("message", Some (JStr "Token is valid"));
           ("user", Some (obj
              [ ("name", get user "name");
                ("email", js_or (get user "preferred_username")
                                (get user "email")) ])) ]).

(** A route registered as [app.get(path, validateToken, handler)]: the
    handler runs when the middleware has called [next()]. *)
Definition behind_validateToken (handler : JValue -> Server.Response)
  (n : Node) (now : Z) (req : ApiRequest) : Node * Server.Response :=
  match validateToken n now req with
  | (n1, Responded r) => (n1, r)
  | (n1, Next user) => (n1, handler user)
  end.

(** [GET /api/health] *)
Definition health (n : Node) (now : Z) : Server.Response :=
  ok_json
    (obj [ ("status", Some (JStr "healthy"));
           ("timestamp", Some (JStr (toISOString now)));
           ("tenantId", Some (JStr (if is_set (TENANT_ID (env n))
                                    then "***configured***" else "missing")));
           ("clientId", Some (JStr (if is_set (CLIENT_ID (env n))
                                    then "***configured***" else "missing"))) ]).

(** [GET /api/config] *)
Definition config (n : Node) : Server.Response :=
  let e := env n in
  ok_json
    (obj [ ("clientId", option_map JStr (CLIENT_ID e));
           ("authority",
            Some (JStr (or_else (AUTHORITY e)
                          ("https://login.microsoftonline.com/"
                           ++ interpolate (TENANT_ID e)))));
           ("redirectUri",
            Some (JStr (or_else (REDIRECT_URI e)
                          ("http://localhost:" ++ or_else (PORT e) "3000"
                           ++ "/auth/callback"))));
           ("scopes", Some (JArr (map JStr (scopes e)))) ]).

End Routes.

End Api.

(** ** Start-up of the page

    [init] with the functions it calls: [fetchConfig],
    [checkForSessionTokenInUrl], [handleResponse], [setupEventListeners].
    The MSAL library and [URLSearchParams] are parameters. *)

Module Startup.

Import Client.

Inductive Handler : Type :=
| OnSignIn
| OnSignOut
| OnGetProfile
| OnGetData.

(** The [auth] part of [msalConfig]. *)
Record MsalAuth : Type := mkMsalAuth {
  clientId : JsVal;
  authority : JsVal;
  redirectUri : JsVal
}.

(** The page together with what [init] sets up around it: the module
    variables [msalConfig] and [msalInstance], MSAL's active account, the
    click listeners by element key, the [console.error] lines that carry a
    text only, and the addresses fetched with GET. *)
Record App : Type := mkApp {
  page : Page;
  msalConfig : option MsalAuth;
  msalInstance : bool;
  activeAccount : option Account;
  listeners : list (string * Handler);
  complaints : list string;
  gets : list string
}.

Definition with_page (pg : Page) (a : App) : App :=
  mkApp pg (msalConfig a) (msalInstance a) (activeAccount a) (listeners a)
        (complaints a) (gets a).

Definition set_msalConfig (c : MsalAuth) (a : App) : App :=
  mkApp (page a) (Some c) (msalInstance a) (activeAccount a) (listeners a)
        (complaints a) (gets a).

Definition set_msalInstance (a : App) : App :=
  mkApp (page a) (msalConfig a) true (activeAccount a) (listeners a)
        (complaints a) (gets a).

Definition setActiveAccount (account : Account) (a : App) : App :=
  mkApp (page a) (msalConfig a) (msalInstance a) (Some account) (listeners a)
        (complaints a) (gets a).

Definition complain (text : string) (a : App) : App :=
  mkApp (page a) (msalConfig a) (msalInstance a) (activeAccount a) (listeners a)
        (complaints a ++ [text]) (gets a).

Definition fetched (address : string) (a : App) : App :=
  mkApp (page a) (msalConfig a) (msalInstance a) (activeAccount a) (listeners a)
        (complaints a) (gets a ++ [address]).

Definition setupEventListeners (a : App) : App :=
  mkApp (page a) (msalConfig a) (msalInstance a) (activeAccount a)
        (listeners a ++ [ ("loginButton", OnSignIn); ("logoutButton", OnSignOut);
                          ("getProfileButton", OnGetProfile);
                          ("getDataButton", OnGetData) ])
        (complaints a) (gets a).

(** *** Scripts over the whole application *)

Definition Task (A : Type) : Type := App -> App * Outcome A.

Definition done {A} (x : A) : Task A := fun a => (a, Returned x).

Definition raise {A} (e : JsError) : Task A := fun a => (a, Thrown e).

Definition followed {A B} (m : Task A) (k : A -> Task B) : Task B :=
  fun a =>
    match m a with
    | (a1, Returned x) => k x a1
    | (a1, Thrown e) => (a1, Thrown e)
    end.

Definition change (f : App -> App) : Task unit :=
  fun a => (f a, Returned tt).

(** A page script run inside the application. *)
Definition on_page {A} (m : Script A) : Task A :=
  fun a => let (pg, o) := m (page a) in (with_page pg a, o).

Definition settle {A} (o : Outcome A) : Task A := fun a => (a, o).

Definition attempt {A} (m : Task A) (handler : JsError -> Task A) : Task A :=
  fun a =>
    match m a with
    | (a1, Returned x) => (a1, Returned x)
    | (a1, Thrown e) => handler e a1
    end.

Declare Scope task_scope.
Delimit Scope task_scope with task.
Notation "x <- m ;; k" := (followed m (fun x => k))
  (at level 100, m at next level, right associativity) : task_scope.
Notation "m ;; k" := (followed m (fun _ => k))
  (at level 100, right associativity) : task_scope.

(** An observation of the page that a script leaves as it was, however the
    script ends. *)
Definition preserves {A B} (obs : Page -> B) (m : Script A) : Prop :=
  forall pg, obs (fst (m pg)) = obs pg.

(** An observation of the application that a task leaves as it was. *)
Definition keeps {A B} (obs : App -> B) (m : Task A) : Prop :=
  forall a, obs (fst (m a)) = obs a.

(** What the standard flow installs. *)
Definition click_listeners : list (string * Handler) :=
  [ ("loginButton", OnSignIn); ("logoutButton", OnSignOut);
    ("getProfileButton", OnGetProfile); ("getDataButton", OnGetData) ].

(** What start-up leaves alone: listeners, active account, address,
    requests to the exchange endpoint and timers. *)
Definition standing (a : App)
  : list (string * Handler) * option Account * (string * string * string)
    * list FetchRequest * list (Callback * Z) :=
  (listeners a, activeAccount a, location (page a), requests (page a),
   timers (page a)).

(** A property that is [undefined], falsy or a string. *)
Definition textual (v : JsVal) : Prop :=
  match v with
  | None => True
  | Some (JStr _) => True
  | Some x => truthy x = false
  end.

Section Init.

Variable ToString : JValue -> Outcome string.
Variable capture_stack : string -> string -> string.
Variable toLocaleString : Z -> string.
Variable Date_now : Z.
Variable fetch : FetchRequest -> FetchResult.
Variable acquireTokenSilent : Account -> Outcome TokenResponse.
(** [typeof msal !== 'undefined'] *)
Variable msal_defined : bool.
(** [fetch(address)], a GET without options. *)
Variable fetch_get : string -> FetchResult.
(** [new msal.PublicClientApplication(msalConfig)] and
    [msalInstance.initialize()]. *)
Variable PublicClientApplication : MsalAuth -> Outcome unit.
Variable initialize : Outcome unit.
(** [msalInstance.handleRedirectPromise()]: the authentication result with
    its account, or [null]. *)
Variable handleRedirectPromise : Outcome (option (TokenResponse * Account)).
Variable getAllAccounts : list Account.
(** [new URLSearchParams(query).get(name)] *)
Variable URLSearchParams_get : string -> string -> option string.

Open Scope task_scope.

Definition fetchConfig : Task JValue :=
  change (fetched "/api/config") ;;
  match fetch_get "/api/config" with
  | FetchRejected e => raise e
  | FetchResolved response =>
      if ok response then settle (json response)
      else raise (new_Error capture_stack "Failed to fetch configuration")
  end.

Definition checkForSessionTokenInUrl (pg : Page) : option string :=
  URLSearchParams_get (search pg) "session_token".

Definition handleResponse (response : option (TokenResponse * Account))
  : Task unit :=
  match response with
  | None => done tt
  | Some (result, account) =>
      on_page (effect (set_tokenResponse result)) ;;
      change (setActiveAccount account) ;;
      on_page (handleAuthenticatedUser ToString capture_stack toLocaleString
                 acquireTokenSilent account)
  end.

(** The part of [init] that runs when no session token is in the address:
    the standard MSAL flow. *)
Definition standard_flow : Task unit :=
  attempt
    (response <- settle handleRedirectPromise ;;
     handleResponse response)
    (fun err =>
       on_page (effect (console_write (ConsoleError "Redirect error:" err))) ;;
       on_page (effect (showDebugInfo Date_now err))) ;;
  match getAllAccounts with
  | first :: _ =>
      change (setActiveAccount first) ;;
      on_page (handleAuthenticatedUser ToString capture_stack toLocaleString
                 acquireTokenSilent first)
  | [] => on_page (effect showUnauthenticatedView)
  end ;;
  change setupEventListeners ;;
  on_page (effect (updateStatus "Ready" false)).

Definition init_failed (error : JsError) : Task unit :=
  on_page (effect (console_write (ConsoleError "Initialization error:" error))) ;;
  on_page (effect (updateStatus "Error initializing" true)) ;;
  on_page (effect (showDebugInfo Date_now error)).

(** [init] up to the look at the address: MSAL is checked, configured and
    started. *)
Definition startup : Task (option string) :=
  on_page (effect (updateStatus "Initializing..." false)) ;;
  (if msal_defined then done tt
   else
     change (complain "MSAL library not loaded") ;;
     raise (new_Error capture_stack
              "MSAL library failed to load. Please check your internet connection and refresh the page.")) ;;
  config <- fetchConfig ;;
  config_clientId <- on_page (read_property capture_stack (Some config) "clientId") ;;
  config_authority <- on_page (read_property capture_stack (Some config) "authority") ;;
  config_redirectUri <- on_page (read_property capture_stack (Some config) "redirectUri") ;;
  change (set_msalConfig (mkMsalAuth config_clientId config_authority
                            config_redirectUri)) ;;
  settle (PublicClientApplication
            (mkMsalAuth config_clientId config_authority config_redirectUri)) ;;
  change set_msalInstance ;;
  settle initialize ;;
  on_page (read checkForSessionTokenInUrl).

(** [if (sessionToken) { ... return; }] and what follows it. *)
Definition after_detection (sessionToken : option string) : Task unit :=
  match sessionToken with
  | Some token =>
      if String.eqb token EmptyString then standard_flow
      else
        on_page (effect (console_write
                   (ConsoleLog "Session token detected - initializing session from native app"))) ;;
        on_page (handleSessionTokenExchange ToString capture_stack
                   toLocaleString Date_now fetch acquireTokenSilent token)
  | None => standard_flow
  end.

Definition init : Task unit :=
  attempt (sessionToken <- startup ;; after_detection sessionToken)
          init_failed.

End Init.

End Startup.

(** ** Sample environment, requests and start-up *)

Module Visit.

Import Sample.

Definition deployed : Api.Environment :=
  {| Api.NODE_ENV := Some "production";
     Api.TENANT_ID := Some "11111111-2222-3333-4444-555555555555";
     Api.CLIENT_ID := Some "66666666-7777-8888-9999-000000000000";
     Api.AUTHORITY := None;
     Api.REDIRECT_URI := None;
     Api.API_SCOPES := Some "User.Read, profile ,openid,";
     Api.PORT := Some "8080" |}.

Definition node : Api.Node := {| Api.env := deployed; Api.console := [] |}.

Definition toISOString (_ : Z) : string := "2023-11-14T22:14:20.000Z".

Definition bearer (tok : string) : Api.ApiRequest :=
  {| Api.authorization := Some ("Bearer " ++ tok) |}.

Definition validateToken : Api.Node -> Z -> Api.ApiRequest -> Api.Node * Api.Verdict :=
  Api.validateToken StringToNumber ToString jwt_decode capture_stack.

Definition get_profile : Api.Node -> Z -> Api.ApiRequest -> Api.Node * Server.Response :=
  Api.behind_validateToken StringToNumber ToString jwt_decode capture_stack
    Api.profile.

(** The application before [init] has run, on the page [pg]. *)
Definition fresh (pg : Client.Page) : Startup.App :=
  {| Startup.page := pg;
     Startup.msalConfig := None;
     Startup.msalInstance := false;
     Startup.activeAccount := None;
     Startup.listeners := [];
     Startup.complaints := [];
     Startup.gets := [] |}.

(** The page opened without a query. *)
Definition plain : Client.Page :=
  {| Client.pathname := "/";
     Client.search := EmptyString;
     Client.hash := EmptyString;
     Client.textContent := fun _ => EmptyString;
     Client.display := fun _ => EmptyString;
     Client.debugContent := None;
     Client.indicator_error := false;
     Client.tokenResponse := None;
     Client.console := [];
     Client.timers := [];
     Client.requests := [] |}.

(** [URLSearchParams] on the queries of the samples: a single parameter
    without escapes, [?name=value]. *)
Definition URLSearchParams_get (query name : string) : option string :=
  if prefix ("?" ++ name ++ "=") query
  then Some (Api.skip (2 + String.length name) query)
  else None.

(** The answer of [GET /api/config] from the sample environment. *)
Definition config_reply (_ : string) : Client.FetchResult :=
  Client.FetchResolved (Handoff.http_reply (Api.config node)).

Definition config_unavailable (_ : string) : Client.FetchResult :=
  Client.FetchResolved {| Client.ok := false; Client.json := Returned JNull |}.

Definition ready_msal (_ : Startup.MsalAuth) : Outcome unit := Returned tt.

(** [init] in a browser where MSAL is loaded and starts, the redirect
    promise resolves to [null] and no account is cached. *)
Definition init (fetch_get : string -> Client.FetchResult)
  (fetch : Client.FetchRequest -> Client.FetchResult) : Startup.Task unit :=
  Startup.init ToString capture_stack toLocaleString after_exp fetch
    acquireTokenSilent true fetch_get ready_msal (Returned tt)
    (Returned None) [] URLSearchParams_get.

(** [init] in a browser where the MSAL script did not load. *)
Definition init_without_msal : Startup.Task unit :=
  Startup.init ToString capture_stack toLocaleString after_exp offline
    acquireTokenSilent false config_reply ready_msal (Returned tt)
    (Returned None) [] URLSearchParams_get.

(** [null] as the payload segment: [jwt.decode] with [complete] returns an
    object whose [payload] is [null]. *)
Definition token_null : string := compact "bnVsbA" EmptyString.

(** [{"type":"session_init","sub":"user-id-123","name":42,
      "email":"test.user@example.com","jti":"tok-4"}] *)
Definition claims_numbered : JValue :=
  JObj [ ("type", JStr "session_init"); ("sub", JStr "user-id-123");
         ("name", JNum (inject_Z 42)); ("email", JStr "test.user@example.com");
         ("jti", JStr "tok-4") ].

Definition token_numbered : string :=
  compact "eyJ0eXBlIjoic2Vzc2lvbl9pbml0Iiwic3ViIjoidXNlci1pZC0xMjMiLCJuYW1lIjo0MiwiZW1haWwiOiJ0ZXN0LnVzZXJAZXhhbXBsZS5jb20iLCJqdGkiOiJ0b2stNCJ9"
    EmptyString.

(** [jwt.decode] on the sample tokens and on the two above. *)
Definition jwt_decode_odd (tok : JValue) : Outcome (option Server.DecodedJwt) :=
  match tok with
  | JStr s =>
      if String.eqb s token_null
      then Returned (Some (Server.mkDecoded header_hs256 JNull EmptyString))
      else if String.eqb s token_numbered
      then Returned (Some (Server.mkDecoded header_hs256 claims_numbered EmptyString))
      else jwt_decode tok
  | _ => jwt_decode tok
  end.


(** An account as MSAL caches it. *)
Definition ada : Client.Account :=
  {| Client.username := Some (JStr "ada@example.com");
     Client.name := Some (JStr "Ada Lovelace");
     Client.email := None |}.

End Visit.
(** ** Properties of the exchange endpoint *)

Module ServerFacts.

Import Server.

Section Facts.

Variable StringToNumber : string -> option Q.
Variable ToString : JValue -> Outcome string.
Variable jwt_decode : JValue -> Outcome (option DecodedJwt).

#[local] Abbreviation exchange :=
  (initialize_session StringToNumber ToString jwt_decode).
#[local] Abbreviation run := (serve StringToNumber ToString jwt_decode).
#[local] Abbreviation is_expired := (expired StringToNumber ToString).
#[local] Abbreviation answer :=
  (Answer StringToNumber ToString jwt_decode).

(** Every call follows one of the paths of [Answer]. *)
Lemma exchange_answer p now req : answer p now req (exchange p now req).
Proof.
  unfold initialize_session.
  destruct (sessionToken req) as [tok|] eqn:Etok;
    [|apply NoToken; rewrite Etok; reflexivity].
  destruct (truthy tok) eqn:Ht; cbn [negb];
    [|apply NoToken; rewrite Etok; exact Ht].
  destruct (try_block StringToNumber ToString jwt_decode p now tok)
    as [out|error] eqn:Etry; [|eapply Crashed; eassumption].
  revert Etry. unfold try_block, and_then.
  destruct (jwt_decode tok) as [[d|]|e] eqn:Ed; try discriminate.
  - destruct (truthy (payload d)) eqn:Hp; cbn [negb].
    + destruct (is_expired (payload d) now) as [[|]|e] eqn:Ex; try discriminate.
      * intros [= <-]. eapply Expired; eassumption.
      * destruct (strict_eq_str (get (payload d) "type") "session_init") eqn:Hk;
          cbn [negb]; intros [= <-].
        -- eapply Redeemed; eassumption.
        -- eapply WrongType; eassumption.
    + intros [= <-]. eapply NoPayload; eassumption.
  - intros [= <-]. eapply NotDecoded; eassumption.
Qed.

(** What a call does once its token decodes to a usable payload whose
    expiry test runs to its end. *)
Lemma exchange_decoded p now tok d late :
  truthy tok = true ->
  jwt_decode tok = Returned (Some d) ->
  truthy (payload d) = true ->
  is_expired (payload d) now = Returned late ->
  exchange p now {| sessionToken := Some tok |} =
    if late then
      (p, error_response 401 "Session token expired")
    else if negb (strict_eq_str (get (payload d) "type") "session_init") then
      (p, error_response 401 "Invalid token type")
    else
      (log (LogInfo "Session initialized for user:"
              (js_or (get (payload d) "name") (get (payload d) "email"))) p,
       {| status := 200;
          cookies := [session_cookie p (payload d) now];
          body := success_body (payload d) |}).
Proof.
  intros Ht Hd Hp Hx. unfold initialize_session, try_block, and_then.
  cbn [sessionToken]. rewrite Ht, Hd, Hp, Hx. cbn [negb].
  destruct late; [reflexivity|].
  destruct (strict_eq_str _ _); reflexivity.
Qed.

Lemma log_keeps_env l p : NODE_ENV (log l p) = NODE_ENV p.
Proof. reflexivity. Qed.

Lemma env_is_ext p q mode :
  NODE_ENV p = NODE_ENV q -> env_is p mode = env_is q mode.
Proof. unfold env_is. intros ->. reflexivity. Qed.

(** The handler never touches the environment. *)
Lemma exchange_keeps_env p now req :
  NODE_ENV (fst (exchange p now req)) = NODE_ENV p.
Proof. destruct (exchange_answer p now req); reflexivity. Qed.

Lemma try_block_reads_env_only p q now tok :
  NODE_ENV p = NODE_ENV q ->
  match try_block StringToNumber ToString jwt_decode p now tok,
        try_block StringToNumber ToString jwt_decode q now tok with
  | Returned a, Returned b => snd a = snd b
  | Thrown e, Thrown e' => e = e'
  | _, _ => False
  end.
Proof.
  intros E. unfold try_block, and_then.
  destruct (jwt_decode tok) as [[d|]|e]; [|reflexivity|reflexivity].
  destruct (truthy (payload d)); cbn [negb]; [|reflexivity].
  destruct (is_expired (payload d) now) as [[|]|e]; [reflexivity| |reflexivity].
  destruct (strict_eq_str _ _); cbn [negb snd]; [|reflexivity].
  unfold session_cookie. rewrite (env_is_ext p q "production" E). reflexivity.
Qed.

(** The response reads the process only through [NODE_ENV]. *)
Lemma response_reads_env_only p q now req :
  NODE_ENV p = NODE_ENV q ->
  snd (exchange p now req) = snd (exchange q now req).
Proof.
  intros E. unfold initialize_session.
  destruct (sessionToken req) as [tok|]; [|reflexivity].
  destruct (truthy tok); cbn [negb]; [|reflexivity].
  pose proof (try_block_reads_env_only p q now tok E) as H.
  destruct (try_block _ _ _ p now tok) as [a|e],
           (try_block _ _ _ q now tok) as [b|e']; try contradiction.
  - exact H.
  - subst e'. unfold catch_block. cbn [snd].
    rewrite (env_is_ext p q "development" E). reflexivity.
Qed.

Lemma run_keeps_env calls : forall p,
  NODE_ENV (fst (run p calls)) = NODE_ENV p.
Proof.
  induction calls as [|[now req] rest IH]; intros p; [reflexivity|].
  cbn [serve].
  destruct (exchange p now req) as [p1 r] eqn:E1.
  destruct (run p1 rest) as [p2 rs] eqn:E2.
  cbn [fst]. specialize (IH p1). rewrite E2 in IH. cbn [fst] in IH.
  rewrite IH. pose proof (exchange_keeps_env p now req) as K.
  rewrite E1 in K. exact K.
Qed.

(** C1 (as the code has it): the endpoint keeps no record of redeemed
    tokens.  Whatever calls were served before, a call is answered exactly
    as it would be by a process that has served none; in particular a token
    that was already redeemed is answered as on its first presentation. *)
Theorem C1_response_independent_of_history p calls now req :
  snd (exchange (fst (run p calls)) now req) = snd (exchange p now req).
Proof.
  apply response_reads_env_only. apply run_keeps_env.
Qed.

Lemma exchange_not_decoded p now tok :
  truthy tok = true ->
  jwt_decode tok = Returned None ->
  exchange p now {| sessionToken := Some tok |} =
    (p, error_response 401 "Invalid session token format").
Proof.
  intros Ht Hd. unfold initialize_session, try_block, and_then.
  cbn [sessionToken]. rewrite Ht, Hd. reflexivity.
Qed.

(** C3 (as the code has it): decoding is structural only and no
    signature is checked.  With [jwt.decode] doing what its documentation
    says, two tokens that differ in the signature segment alone, valid,
    forged or empty, are answered alike: whatever one of them is answered,
    success and session cookie included, the other is.  A token that
    [jwt.decode] does not take apart is answered 401 "Invalid session token
    format", and tokens whose decoded payloads agree are answered alike. *)
Theorem C3_response_ignores_signature p now :
  decodes_without_verifying jwt_decode ->
  (forall signed s1 s2,
     base64url s1 = true -> base64url s2 = true ->
     snd (exchange p now {| sessionToken := Some (JStr (signed ++ "." ++ s1)) |}) =
     snd (exchange p now {| sessionToken := Some (JStr (signed ++ "." ++ s2)) |})) /\
  (forall tok,
     truthy tok = true -> jwt_decode tok = Returned None ->
     snd (exchange p now {| sessionToken := Some tok |}) =
       error_response 401 "Invalid session token format") /\
  (forall tok1 tok2 d1 d2,
     truthy tok1 = true -> truthy tok2 = true ->
     jwt_decode tok1 = Returned (Some d1) ->
     jwt_decode tok2 = Returned (Some d2) ->
     payload d1 = payload d2 ->
     snd (exchange p now {| sessionToken := Some tok1 |}) =
     snd (exchange p now {| sessionToken := Some tok2 |})).
Proof.
  intros Hdoc.
  assert (forall tok1 tok2 d1 d2,
            truthy tok1 = true -> truthy tok2 = true ->
            jwt_decode tok1 = Returned (Some d1) ->
            jwt_decode tok2 = Returned (Some d2) ->
            payload d1 = payload d2 ->
            snd (exchange p now {| sessionToken := Some tok1 |}) =
            snd (exchange p now {| sessionToken := Some tok2 |})) as Hsame.
  { intros tok1 tok2 d1 d2 T1 T2 D1 D2 E.
    unfold initialize_session, try_block, and_then. cbn [sessionToken].
    rewrite T1, T2, D1, D2, E. reflexivity. }
  split; [|split].
  - intros signed s1 s2 B1 B2.
    assert (forall s, truthy (JStr (signed ++ "." ++ s)) = true) as T.
    { intros s. cbn [truthy]. destruct signed; reflexivity. }
    specialize (Hdoc signed s1 s2 B1 B2).
    destruct (jwt_decode (JStr (signed ++ "." ++ s1))) as [[d1|]|e1] eqn:D1,
             (jwt_decode (JStr (signed ++ "." ++ s2))) as [[d2|]|e2] eqn:D2;
      try contradiction.
    + destruct Hdoc as [_ E]. exact (Hsame _ _ d1 d2 (T s1) (T s2) D1 D2 E).
    + rewrite (exchange_not_decoded p now _ (T s1) D1),
              (exchange_not_decoded p now _ (T s2) D2). reflexivity.
    + subst e2. unfold initialize_session, try_block, and_then.
      cbn [sessionToken]. rewrite (T s1), (T s2), D1, D2. reflexivity.
  - intros tok T D. rewrite (exchange_not_decoded p now tok T D). reflexivity.
  - exact Hsame.
Qed.

(** C4 (as the code has it): decoding comes first, then the expiry check,
    then the type check, each stopping the call.  A token that does not
    decode is answered "Invalid session token format"; a decoded token that
    is expired is answered "Session token expired" whatever its type; one
    that is not expired and is not of type session_init is answered
    "Invalid token type"; otherwise the call succeeds. *)
Theorem C4_expiry_checked_before_type p now tok :
  truthy tok = true ->
  let r := snd (exchange p now {| sessionToken := Some tok |}) in
  (jwt_decode tok = Returned None ->
     r = error_response 401 "Invalid session token format") /\
  (forall d,
     jwt_decode tok = Returned (Some d) ->
     truthy (payload d) = true ->
     (is_expired (payload d) now = Returned true ->
        r = error_response 401 "Session token expired") /\
     (is_expired (payload d) now = Returned false ->
      strict_eq_str (get (payload d) "type") "session_init" = false ->
        r = error_response 401 "Invalid token type") /\
     (is_expired (payload d) now = Returned false ->
      strict_eq_str (get (payload d) "type") "session_init" = true ->
        status r = 200)).
Proof.
  intros Ht. cbv zeta. split.
  - intros Hd. rewrite (exchange_not_decoded p now tok Ht Hd). reflexivity.
  - intros d Hd Hp. repeat split.
    + intros Hx. rewrite (exchange_decoded p now tok d true Ht Hd Hp Hx).
      reflexivity.
    + intros Hx Hk.
      rewrite (exchange_decoded p now tok d false Ht Hd Hp Hx), Hk.
      reflexivity.
    + intros Hx Hk.
      rewrite (exchange_decoded p now tok d false Ht Hd Hp Hx), Hk.
      reflexivity.
Qed.

Lemma Qltb_lt x y : Qltb x y = true <-> (x < y)%Q.
Proof.
  unfold Qltb. rewrite negb_true_iff. split.
  - intros H. apply Qnot_le_lt. intros L.
    apply Qle_bool_iff in L. congruence.
  - intros H. destruct (Qle_bool y x) eqn:E; [|reflexivity].
    apply Qle_bool_iff in E. exfalso. exact (Qlt_not_le _ _ H E).
Qed.

Lemma truthy_num q : truthy (JNum q) = true <-> ~ (q == 0)%Q.
Proof.
  cbn [truthy]. rewrite negb_true_iff. split.
  - intros H E. apply Qeq_bool_iff in E. congruence.
  - intros H. destruct (Qeq_bool q 0) eqn:E; [|reflexivity].
    apply Qeq_bool_iff in E. contradiction.
Qed.

(** [lt_double] against a finite double is the comparison with its
    value. *)
Lemma lt_double_finite e s m x :
  (lt_double e (S754_finite s m x) = true <-> (e < double_value s m x)%Q) /\
  (lt_double e (S754_finite s m x) = false <-> (double_value s m x <= e)%Q).
Proof.
  cbn [lt_double]. split; [apply Qltb_lt|]. split.
  - intros H. destruct (Qlt_le_dec e (double_value s m x)) as [L|L];
      [|exact L].
    apply Qltb_lt in L. congruence.
  - intros H. destruct (Qltb e (double_value s m x)) eqn:E; [|reflexivity].
    apply Qltb_lt in E. exfalso. exact (Qlt_not_le _ _ E H).
Qed.

(** The expiry test on a numeric [exp] always runs to its end. *)
Lemma expired_num pl now e :
  get pl "exp" = Some (JNum e) ->
  is_expired pl now =
    Returned (truthy (JNum e) && lt_double e (seconds now)).
Proof.
  intros G. unfold expired. rewrite G.
  destruct (truthy (JNum e)); reflexivity.
Qed.

(** C5 (as the code has it): a token whose [exp] claim is a non-zero number
    is answered "Session token expired", redeemed before or not, exactly
    when [exp] is strictly below [Date.now() / 1000], the quotient being
    the double the engine computes; in every other case, the one where
    [exp] equals that double included, the expiry check lets the token
    through. *)
Theorem C5_expired_strictly_after_exp p now tok d e :
  truthy tok = true ->
  jwt_decode tok = Returned (Some d) ->
  truthy (payload d) = true ->
  get (payload d) "exp" = Some (JNum e) ->
  (lt_double e (seconds now) = true -> ~ (e == 0)%Q ->
     exchange p now {| sessionToken := Some tok |} =
       (p, error_response 401 "Session token expired")) /\
  (lt_double e (seconds now) = false ->
     is_expired (payload d) now = Returned false) /\
  (forall s m x,
     seconds now = S754_finite s m x ->
     (lt_double e (seconds now) = true <-> (e < double_value s m x)%Q) /\
     (lt_double e (seconds now) = false <-> (double_value s m x <= e)%Q)).
Proof.
  intros Ht Hd Hp He.
  pose proof (expired_num (payload d) now e He) as Hx. split; [|split].
  - intros Hlt Hnz.
    apply truthy_num in Hnz. rewrite Hnz, Hlt in Hx.
    rewrite (exchange_decoded p now tok d _ Ht Hd Hp Hx). reflexivity.
  - intros Hge. rewrite Hx, Hge. rewrite andb_false_r. reflexivity.
  - intros s m x ->. apply lt_double_finite.
Qed.

(** C6: a decodable, unexpired token whose [type] claim is not the literal
    session_init is answered 401 "Invalid token type"; no cookie is set and
    the process is left as it was. *)
Theorem C6_wrong_kind_rejected p now tok d :
  truthy tok = true ->
  jwt_decode tok = Returned (Some d) ->
  truthy (payload d) = true ->
  is_expired (payload d) now = Returned false ->
  strict_eq_str (get (payload d) "type") "session_init" = false ->
  exchange p now {| sessionToken := Some tok |} =
    (p, error_response 401 "Invalid token type") /\
  cookies (snd (exchange p now {| sessionToken := Some tok |})) = [].
Proof.
  intros Ht Hd Hp Hx Hk.
  rewrite (exchange_decoded p now tok d false Ht Hd Hp Hx), Hk.
  split; reflexivity.
Qed.

(** C7 (as the code has it): a call that fails (any status other than
    200) sets no cookie; it leaves the process as it was on every path but
    one, the [catch] block, which writes a line on the console.  A cookie
    is only ever set by a call answered 200.  Such a call writes one
    console line and records nothing else: there is no store of redeemed
    tokens, and the process it leaves behind answers every later call as
    the process before it would. *)
Theorem C7_effects_of_a_call p now req :
  let out := exchange p now req in
  (status (snd out) <> 200 ->
     cookies (snd out) = [] /\
     (fst out = p \/
      exists error,
        fst out = log (LogError "Session initialization error:" error) p)) /\
  (cookies (snd out) <> [] -> status (snd out) = 200) /\
  (status (snd out) = 200 ->
     (exists who,
        fst out = log (LogInfo "Session initialized for user:" who) p) /\
     forall later req',
       snd (exchange (fst out) later req') = snd (exchange p later req')).
Proof.
  cbv zeta. split; [|split].
  - destruct (exchange_answer p now req); cbn [fst snd]; intros Hs;
      first [ exfalso; apply Hs; reflexivity
            | split; [reflexivity|];
              first [ left; reflexivity | right; eexists; reflexivity ] ].
  - destruct (exchange_answer p now req); cbn [fst snd]; intros Hc;
      first [ reflexivity | exfalso; apply Hc; reflexivity ].
  - intros Hs. split.
    + destruct (exchange_answer p now req); cbn [fst snd status] in *;
        try discriminate Hs.
      eexists. reflexivity.
    + intros later req'. apply response_reads_env_only.
      apply exchange_keeps_env.
Qed.

(** C9: a call answered 200 sets exactly one cookie, named session: not
    readable by scripts (HTTP-only), SameSite lax, kept for twenty-four
    hours, and marked secure exactly when NODE_ENV is production.  The JSON
    body has the fields success, message and user (name, email and
    username at most); the cookie's value, which always has the field
    authenticatedAt, is not among them. *)
Theorem C9_session_cookie_delivery p now req :
  status (snd (exchange p now req)) = 200 ->
  exists c,
    cookies (snd (exchange p now req)) = [c] /\
    cookie_name c = "session" /\
    httpOnly c = true /\
    sameSite c = "lax" /\
    maxAge c = 24 * 3600 * 1000 /\
    secure c = env_is p "production" /\
    (NODE_ENV p = Some "production" -> secure c = true) /\
    keys (body (snd (exchange p now req))) = ["success"; "message"; "user"] /\
    (forall u, get (body (snd (exchange p now req))) "user" = Some u ->
               incl (keys u) ["name"; "email"; "username"]) /\
    In "authenticatedAt" (keys (cookie_value c)).
Proof.
  destruct (exchange_answer p now req); cbn [snd status]; try discriminate.
  intros _. eexists. split; [reflexivity|].
  cbn [body cookies session_cookie cookie_name httpOnly sameSite maxAge
       secure cookie_value].
  repeat split.
  - intros E. unfold env_is. rewrite E. reflexivity.
  - intros u Hu. cbn in Hu. injection Hu as <-.
    unfold obj, keys.
    destruct (get (payload d) "name"),
             (js_or (get (payload d) "email") (get (payload d) "preferred_username")),
             (js_or (get (payload d) "preferred_username") (get (payload d) "email"));
      intros k Hk; cbn in Hk |- *; tauto.
  - unfold sessionData, obj, keys.
    destruct (js_or (get (payload d) "sub") (get (payload d) "oid")),
             (js_or (get (payload d) "email") (get (payload d) "preferred_username")),
             (get (payload d) "name"); cbn; tauto.
Qed.

(** C10: a decodable token of type session_init whose payload has no [exp]
    property is never answered as expired: at every instant the call
    succeeds and sets the session cookie. *)
Theorem C10_missing_exp_never_expires p now tok d :
  truthy tok = true ->
  jwt_decode tok = Returned (Some d) ->
  truthy (payload d) = true ->
  get (payload d) "exp" = None ->
  strict_eq_str (get (payload d) "type") "session_init" = true ->
  is_expired (payload d) now = Returned false /\
  status (snd (exchange p now {| sessionToken := Some tok |})) = 200 /\
  cookies (snd (exchange p now {| sessionToken := Some tok |})) =
    [session_cookie p (payload d) now].
Proof.
  intros Ht Hd Hp Hx Hk.
  assert (is_expired (payload d) now = Returned false) as E.
  { unfold expired. rewrite Hx. reflexivity. }
  rewrite (exchange_decoded p now tok d false Ht Hd Hp E), Hk.
  repeat split. exact E.
Qed.




End Facts.

End ServerFacts.

(** ** Properties of the handoff controller *)

Module ClientFacts.

Import Client.

Lemma keeps_ret {A} (a : A) : keeps_location (ret a).
Proof. intros pg. reflexivity. Qed.

Lemma keeps_throw {A} e : keeps_location (@throw A e).
Proof. intros pg. reflexivity. Qed.

Lemma keeps_await {A} (o : Outcome A) : keeps_location (await o).
Proof. intros pg. reflexivity. Qed.

Lemma keeps_read {A} (f : Page -> A) : keeps_location (read f).
Proof. intros pg. reflexivity. Qed.

Lemma keeps_effect f :
  (forall pg, location (f pg) = location pg) -> keeps_location (effect f).
Proof. intros H pg. apply H. Qed.

Lemma keeps_bind {A B} (m : Script A) (k : A -> Script B) :
  keeps_location m -> (forall a, keeps_location (k a)) ->
  keeps_location (bind m k).
Proof.
  intros Hm Hk pg. unfold bind. specialize (Hm pg).
  destruct (m pg) as [pg1 [a|e]]; cbn [fst] in *.
  - rewrite (Hk a pg1). exact Hm.
  - exact Hm.
Qed.

Lemma keeps_try_catch {A} (m : Script A) handler :
  keeps_location m -> (forall e, keeps_location (handler e)) ->
  keeps_location (try_catch m handler).
Proof.
  intros Hm Hh pg. unfold try_catch. specialize (Hm pg).
  destruct (m pg) as [pg1 [a|e]]; cbn [fst] in *.
  - exact Hm.
  - rewrite (Hh e pg1). exact Hm.
Qed.

Lemma keeps_finally {A} (m : Script A) f :
  keeps_location m -> (forall pg, location (f pg) = location pg) ->
  keeps_location (finally m f).
Proof.
  intros Hm Hf pg. unfold finally. specialize (Hm pg).
  destruct (m pg) as [pg1 o]; cbn [fst] in *.
  rewrite Hf. exact Hm.
Qed.

Create HintDb location.

(** Walks through a script, one construct at a time. *)
Ltac location_step :=
  first [ apply keeps_bind; [|intros ?]
        | apply keeps_try_catch; [|intros ?]
        | apply keeps_effect; intros ?; reflexivity
        | apply keeps_ret | apply keeps_throw
        | apply keeps_await | apply keeps_read
        | solve [auto with location]
        | match goal with
          | |- keeps_location (match ?x with _ => _ end) => destruct x
          end ].

Ltac location_walk := repeat location_step.

Section Facts.

Variable ToString : JValue -> Outcome string.
Variable capture_stack : string -> string -> string.
Variable toLocaleString : Z -> string.
Variable Date_now : Z.
Variable fetch : FetchRequest -> FetchResult.
Variable acquireTokenSilent : Account -> Outcome TokenResponse.

#[local] Abbreviation handoff :=
  (handleSessionTokenExchange ToString capture_stack toLocaleString Date_now
     fetch acquireTokenSilent).
#[local] Abbreviation settled :=
  (exchange_settled ToString capture_stack toLocaleString acquireTokenSilent).
#[local] Abbreviation parsed :=
  (exchange_parsed ToString capture_stack toLocaleString acquireTokenSilent).
#[local] Abbreviation failed := (exchange_failed Date_now).

Lemma text_of_keeps v : keeps_location (text_of ToString v).
Proof. unfold text_of. location_walk. Qed.

Lemma read_property_keeps v k :
  keeps_location (read_property capture_stack v k).
Proof. unfold read_property. location_walk. Qed.

Lemma getInitials_keeps v : keeps_location (getInitials capture_stack v).
Proof. unfold getInitials. location_walk. Qed.

#[local] Hint Resolve text_of_keeps read_property_keeps getInitials_keeps
  : location.

Lemma handleAuthenticatedUser_keeps account :
  keeps_location
    (handleAuthenticatedUser ToString capture_stack toLocaleString
       acquireTokenSilent account).
Proof. unfold handleAuthenticatedUser. location_walk. Qed.

#[local] Hint Resolve handleAuthenticatedUser_keeps : location.

Lemma exchange_started_keeps tok : keeps_location (exchange_started tok).
Proof. intros pg. reflexivity. Qed.

Lemma exchange_failed_keeps e : keeps_location (failed e).
Proof. intros pg. reflexivity. Qed.






(** The whole of [handleSessionTokenExchange], cut at its [await]. *)
Lemma handoff_from_settlement tok pg :
  handoff tok pg =
    let pg1 := fst (exchange_started tok pg) in
    match settled (fetch (exchange_request tok)) pg1 with
    | (pg2, Returned a) => (showLoading false pg2, Returned a)
    | (pg2, Thrown e) =>
        (showLoading false (fst (failed e pg2)), snd (failed e pg2))
    end.
Proof.
  unfold handleSessionTokenExchange, finally, try_catch.
  unfold bind at 1. cbn [exchange_started bind effect fst].
  destruct (settled (fetch (exchange_request tok)) _) as [pg2 [a|e]];
    [reflexivity|].
  destruct (failed e pg2); reflexivity.
Qed.




(** When [fetch] rejects, control goes from the [await] to the [catch]
    block and the clean-up is never reached. *)
Lemma rejected_fetch_leaves_address tok pg e :
  fetch (exchange_request tok) = FetchRejected e ->
  location (fst (handoff tok pg)) = location pg.
Proof.
  intros Hfetch. rewrite handoff_from_settlement, Hfetch. reflexivity.
Qed.

End Facts.

End ClientFacts.

(** ** Failures, end to end *)

Module HandoffFacts.

Import Server Client Handoff.

Section Facts.

(** The server's engine and decoder. *)
Variable StringToNumber : string -> option Q.
Variable node_ToString : JValue -> Outcome string.
Variable jwt_decode : JValue -> Outcome (option DecodedJwt).
(** The browser. *)
Variable ToString : JValue -> Outcome string.
Variable capture_stack : string -> string -> string.
Variable toLocaleString : Z -> string.
Variable Date_now : Z.
Variable fetch : FetchRequest -> FetchResult.
Variable acquireTokenSilent : Account -> Outcome TokenResponse.

#[local] Abbreviation post :=
  (post_initialize_session StringToNumber node_ToString jwt_decode).
#[local] Abbreviation handoff :=
  (handleSessionTokenExchange ToString capture_stack toLocaleString Date_now
     fetch acquireTokenSilent).



End Facts.

End HandoffFacts.

(** ** The sample tokens, run through both sides *)

Module Scenarios.

Import Server Sample.

(** C1, against the wording of the specification: the same token is
    presented twice, one millisecond apart, and both calls are answered 200
    with a session cookie. *)
Lemma C1_token_redeemed_twice :
  let replies :=
    snd (serve StringToNumber ToString jwt_decode production
           [ (before_exp, present token_unsigned);
             (before_exp + 1, present token_unsigned) ]) in
  map status replies = [200; 200] /\
  map (fun r => length (cookies r)) replies = [1%nat; 1%nat].
Proof. split; reflexivity. Qed.

Lemma base64url_not_dot c :
  base64url_char c = true -> Ascii.eqb c "."%char = false.
Proof.
  destruct c as [[] [] [] [] [] [] [] []]; intros H;
    first [reflexivity | discriminate H].
Qed.

Lemma last_dot_none s : base64url s = true -> last_dot s = None.
Proof.
  induction s as [|c rest IH]; [reflexivity|].
  cbn [base64url last_dot]. intros H. apply andb_true_iff in H.
  destruct H as [Hc Hrest]. rewrite (IH Hrest), (base64url_not_dot c Hc).
  reflexivity.
Qed.

Lemma last_dot_signature signed sig :
  base64url sig = true -> last_dot (signed ++ "." ++ sig) = Some (signed, sig).
Proof.
  intros H. induction signed as [|c rest IH].
  - cbn [append last_dot]. rewrite (last_dot_none sig H). reflexivity.
  - cbn [append last_dot]. cbn [append] in IH. rewrite IH. reflexivity.
Qed.

(** The sample decoder does what the documentation of [jwt.decode] says. *)
Lemma sample_decodes_without_verifying : decodes_without_verifying jwt_decode.
Proof.
  intros signed s1 s2 B1 B2. unfold jwt_decode.
  rewrite (last_dot_signature signed s1 B1), (last_dot_signature signed s2 B2).
  rewrite B1, B2. cbn [negb].
  destruct (String.eqb signed (signed_part "bm90IGpzb24")); [reflexivity|].
  destruct (find_token signed decode_table) as [[h pl]|]; cbn; auto.
Qed.

(** C3, against the wording of the specification: a token whose signature
    segment is empty and the same token under a signature nobody issued
    are both redeemed, session cookie included.  Whatever scheme decides
    which signature is the valid one of a signed text, if it accepts at
    most one, the endpoint redeems a token whose signature it rejects. *)
Lemma C3_unverified_token_accepted :
  token_unsigned = signed_part segment_session ++ "." ++ EmptyString /\
  token_forged = signed_part segment_session ++ "." ++ "Zm9yZ2Vk" /\
  status (snd (exchange production before_exp (present token_unsigned))) = 200 /\
  status (snd (exchange production before_exp (present token_forged))) = 200 /\
  map cookie_name
    (cookies (snd (exchange production before_exp (present token_unsigned)))) =
    ["session"] /\
  forall valid : string -> string -> bool,
    (forall signed s1 s2,
       valid signed s1 = true -> valid signed s2 = true -> s1 = s2) ->
    exists sig,
      valid (signed_part segment_session) sig = false /\
      status (snd (exchange production before_exp
                     (present (signed_part segment_session ++ "." ++ sig)))) = 200.
Proof.
  split; [reflexivity|]. split; [reflexivity|]. split; [reflexivity|].
  split; [reflexivity|]. split; [reflexivity|].
  intros valid Hone.
  destruct (valid (signed_part segment_session) EmptyString) eqn:E1.
  - exists "Zm9yZ2Vk". split; [|reflexivity].
    destruct (valid (signed_part segment_session) "Zm9yZ2Vk") eqn:E2;
      [|reflexivity].
    specialize (Hone _ _ _ E1 E2). discriminate Hone.
  - exists EmptyString. split; [exact E1|reflexivity].
Qed.

Lemma C3_response_ignores_signature_witness :
  decodes_without_verifying jwt_decode /\
  snd (exchange production before_exp (present token_unsigned)) =
  snd (exchange production before_exp (present token_forged)) /\
  status (snd (exchange production before_exp (present token_forged))) = 200.
Proof.
  split; [exact sample_decodes_without_verifying|]. split; [|reflexivity].
  exact (proj1 (ServerFacts.C3_response_ignores_signature
                  StringToNumber ToString jwt_decode production before_exp
                  sample_decodes_without_verifying)
           (signed_part segment_session) EmptyString "Zm9yZ2Vk"
           eq_refl eq_refl).
Defined.

(** C4, against the wording of the specification: a token of type access,
    presented after its expiry, is answered "Session token expired", not
    "Invalid token type". *)
Lemma C4_expired_wrong_kind_reports_expired :
  get claims_access "type" = Some (JStr "access") /\
  expired StringToNumber ToString claims_access after_exp = Returned true /\
  snd (exchange production after_exp (present token_access)) =
    error_response 401 "Session token expired" /\
  snd (exchange production after_exp (present token_access)) <>
    error_response 401 "Invalid token type".
Proof.
  split; [reflexivity|]. split; [reflexivity|]. split; [reflexivity|].
  discriminate.
Qed.

Lemma C4_expiry_checked_before_type_witness :
  expired StringToNumber ToString claims_access after_exp = Returned true /\
  snd (exchange production after_exp (present token_access)) =
    error_response 401 "Session token expired".
Proof.
  split; [reflexivity|].
  apply (proj2 (ServerFacts.C4_expiry_checked_before_type
                  StringToNumber ToString jwt_decode production after_exp
                  (JStr token_access) eq_refl)
           (mkDecoded header_hs256 claims_access EmptyString));
    reflexivity.
Defined.

(** C5, against the wording of the specification: at the very instant
    [exp] (in seconds, [exp = now / 1000]) the token is still redeemed.
    And since the quotient is rounded, a payload whose [exp] is the double
    next below [now / 1000] is not expired either. *)
Lemma C5_redeemed_at_exp :
  get claims_session "exp" = Some (JNum (inject_Z 1700000060)) /\
  (inject_Z 1700000060 <= inject_Z at_exp / 1000)%Q /\
  status (snd (exchange production at_exp (present token_unsigned))) = 200 /\
  (3565158525831217 # 2097152 < inject_Z 1700000060001 / 1000)%Q /\
  expired StringToNumber ToString
    (JObj [("exp", JNum (3565158525831217 # 2097152))]) 1700000060001 =
    Returned false.
Proof.
  split; [reflexivity|]. split; [unfold Qle; cbn; lia|].
  split; [vm_compute; reflexivity|].
  split; [unfold Qlt; cbn; lia|vm_compute; reflexivity].
Qed.

Lemma C5_expired_strictly_after_exp_witness :
  lt_double (inject_Z 1700000060) (seconds after_exp) = true /\
  lt_double (inject_Z 1700000060) (seconds at_exp) = false /\
  exchange production after_exp (present token_unsigned) =
    (production, error_response 401 "Session token expired") /\
  expired StringToNumber ToString claims_session at_exp = Returned false.
Proof.
  assert (lt_double (inject_Z 1700000060) (seconds after_exp) = true) as Hlt
    by (vm_compute; reflexivity).
  assert (lt_double (inject_Z 1700000060) (seconds at_exp) = false) as Hge
    by (vm_compute; reflexivity).
  split; [exact Hlt|]. split; [exact Hge|]. split.
  - apply (proj1 (ServerFacts.C5_expired_strictly_after_exp
             StringToNumber ToString jwt_decode production after_exp
             (JStr token_unsigned)
             (mkDecoded header_hs256 claims_session EmptyString)
             (inject_Z 1700000060) eq_refl eq_refl eq_refl eq_refl)).
    + exact Hlt.
    + unfold Qeq. cbn. lia.
  - apply (proj1 (proj2 (ServerFacts.C5_expired_strictly_after_exp
             StringToNumber ToString jwt_decode production at_exp
             (JStr token_unsigned)
             (mkDecoded header_hs256 claims_session EmptyString)
             (inject_Z 1700000060) eq_refl eq_refl eq_refl eq_refl))).
    exact Hge.
Defined.

Lemma C6_wrong_kind_rejected_witness :
  expired StringToNumber ToString claims_access before_exp = Returned false /\
  exchange production before_exp (present token_access) =
    (production, error_response 401 "Invalid token type") /\
  cookies (snd (exchange production before_exp (present token_access))) = [].
Proof.
  split; [reflexivity|].
  apply (ServerFacts.C6_wrong_kind_rejected
           StringToNumber ToString jwt_decode production before_exp
           (JStr token_access) (mkDecoded header_hs256 claims_access EmptyString));
    reflexivity.
Defined.

(** C7, against the wording of the specification: a failing call has a
    side effect when the decoder throws (a line on the console), and a
    successful call records nothing of the token: the same token is
    redeemed by the call that follows. *)
Lemma C7_failure_logged_success_unrecorded :
  status (snd (exchange production before_exp (present token_broken))) = 401 /\
  fst (exchange production before_exp (present token_broken)) <> production /\
  let first := exchange production before_exp (present token_unsigned) in
  status (snd first) = 200 /\
  fst first =
    log (LogInfo "Session initialized for user:" (Some (JStr "Test User")))
      production /\
  status (snd (exchange (fst first) (before_exp + 1) (present token_unsigned))) =
    200.
Proof.
  split; [reflexivity|]. split; [discriminate|].
  cbv zeta. split; [reflexivity|]. split; reflexivity.
Qed.

Lemma C7_effects_of_a_call_witness :
  status (snd (exchange production before_exp (present token_broken))) <> 200 /\
  cookies (snd (exchange production before_exp (present token_broken))) = [] /\
  fst (exchange production before_exp (present token_broken)) =
    log (LogError "Session initialization error:" not_json) production.
Proof.
  assert (status (snd (exchange production before_exp (present token_broken)))
          <> 200) as H by discriminate.
  split; [exact H|]. split; [|reflexivity].
  exact (proj1 (proj1 (ServerFacts.C7_effects_of_a_call
                         StringToNumber ToString jwt_decode production
                         before_exp (present token_broken)) H)).
Defined.

Lemma C9_session_cookie_delivery_witness :
  status (snd (exchange production before_exp (present token_unsigned))) = 200 /\
  exists c,
    cookies (snd (exchange production before_exp (present token_unsigned))) = [c] /\
    httpOnly c = true /\ sameSite c = "lax" /\ secure c = true.
Proof.
  split; [reflexivity|].
  destruct (ServerFacts.C9_session_cookie_delivery
              StringToNumber ToString jwt_decode production before_exp
              (present token_unsigned) eq_refl)
    as (c & Hc & _ & Hh & Hs & _ & _ & Hp & _).
  exists c. repeat split; try assumption. apply Hp. reflexivity.
Defined.

Lemma C10_missing_exp_never_expires_witness :
  get claims_no_exp "exp" = None /\
  status (snd (exchange production (1000 * after_exp) (present token_no_exp))) = 200.
Proof.
  split; [reflexivity|].
  apply (ServerFacts.C10_missing_exp_never_expires
           StringToNumber ToString jwt_decode production (1000 * after_exp)
           (JStr token_no_exp) (mkDecoded header_hs256 claims_no_exp EmptyString));
    reflexivity.
Defined.





End Scenarios.

(** ** Properties of the other routes *)

Module ApiFacts.

Import Api.

Section Facts.

Variable StringToNumber : string -> option Q.
Variable ToString : JValue -> Outcome string.
Variable jwt_decode : JValue -> Outcome (option Server.DecodedJwt).
Variable capture_stack : string -> string -> string.

#[local] Abbreviation validate :=
  (validateToken StringToNumber ToString jwt_decode capture_stack).
#[local] Abbreviation behind :=
  (behind_validateToken StringToNumber ToString jwt_decode capture_stack).
#[local] Abbreviation late :=
  (token_expired StringToNumber ToString capture_stack).

(** [validateToken] on a header that carries a bearer token. *)
Lemma validate_bearer n now h :
  prefix "Bearer " h = true ->
  validate n now {| authorization := Some h |} =
    match jwt_decode (JStr (skip 7 h)) with
    | Thrown e => validate_catch n e
    | Returned None =>
        (n, Responded (Server.error_response 401 "Invalid token format"))
    | Returned (Some d) =>
        match late (Server.payload d) now with
        | Thrown e => validate_catch n e
        | Returned true =>
            (n, Responded (Server.error_response 401 "Token expired"))
        | Returned false =>
            (log (Log [ Some (JStr "Token received - Issuer:");
                        get (Server.payload d) "iss";
                        Some (JStr "Audience:");
                        get (Server.payload d) "aud" ]) n,
             Next (Server.payload d))
        end
    end.
Proof.
  intros Hp. unfold validateToken. cbn [authorization].
  assert (String.eqb h EmptyString = false) as ->.
  { destruct h; [discriminate Hp|reflexivity]. }
  rewrite Hp. cbn [negb orb]. unfold validate_try, and_then.
  destruct (jwt_decode (JStr (skip 7 h))) as [[d|]|e]; try reflexivity.
  destruct (late (Server.payload d) now) as [[|]|e]; reflexivity.
Qed.

(** A request without a bearer token never gets past the middleware. *)
Lemma validate_no_bearer n now req :
  (forall h, authorization req = Some h -> prefix "Bearer " h = false) ->
  validate n now req =
    (n, Responded (Server.error_response 401 "No token provided")).
Proof.
  intros H. unfold validateToken.
  destruct (authorization req) as [h|]; [|reflexivity].
  rewrite (H h eq_refl). rewrite orb_true_r. reflexivity.
Qed.

(** X1: a route behind [validateToken] answers with its handler exactly
    when the Authorization header begins with "Bearer ", the rest of it
    decodes, and the expiry test on the payload says not expired; the
    handler then sees the decoded payload as [req.user].  Signature, issuer
    and audience play no part. *)
Theorem protected_route_runs_iff handler n now req :
  (forall user, Server.status (handler user) = 200) ->
  (Server.status (snd (behind handler n now req)) = 200 <->
   exists h d,
     authorization req = Some h /\
     prefix "Bearer " h = true /\
     jwt_decode (JStr (skip 7 h)) = Returned (Some d) /\
     late (Server.payload d) now = Returned false) /\
  (forall h d,
     authorization req = Some h ->
     prefix "Bearer " h = true ->
     jwt_decode (JStr (skip 7 h)) = Returned (Some d) ->
     late (Server.payload d) now = Returned false ->
     snd (behind handler n now req) = handler (Server.payload d)).
Proof.
  intros Hok. split; [split|].
  - unfold behind_validateToken.
    destruct (authorization req) as [h|] eqn:Eh.
    + destruct (prefix "Bearer " h) eqn:Ep.
      * replace req with {| authorization := Some h |}
          by (destruct req; cbn in Eh; subst; reflexivity).
        rewrite (validate_bearer n now h Ep).
        destruct (jwt_decode (JStr (skip 7 h))) as [[d|]|e] eqn:Ed;
          try (cbn; discriminate).
        destruct (late (Server.payload d) now) as [[|]|e] eqn:El;
          try (cbn; discriminate).
        intros _. exists h, d. repeat split; assumption.
      * rewrite validate_no_bearer; [cbn; discriminate|].
        intros h' Hh'. rewrite Eh in Hh'. injection Hh' as <-. exact Ep.
    + rewrite validate_no_bearer; [cbn; discriminate|].
      intros h' Hh'. rewrite Eh in Hh'. discriminate.
  - intros (h & d & Eh & Ep & Ed & El). unfold behind_validateToken.
    replace req with {| authorization := Some h |}
      by (destruct req; cbn in Eh; subst; reflexivity).
    rewrite (validate_bearer n now h Ep), Ed, El. apply Hok.
  - intros h d Eh Ep Ed El. unfold behind_validateToken.
    replace req with {| authorization := Some h |}
      by (destruct req; cbn in Eh; subst; reflexivity).
    rewrite (validate_bearer n now h Ep), Ed, El. reflexivity.
Qed.

(** X2: when validation throws, because the decoder throws or because the
    payload is [null], the 401 answer carries the exception's message as
    [details], whatever [NODE_ENV] is. *)
Theorem validation_error_details_in_every_mode n now h :
  prefix "Bearer " h = true ->
  (forall e,
     jwt_decode (JStr (skip 7 h)) = Thrown e ->
     snd (validate n now {| authorization := Some h |}) =
       Responded
         {| Server.status := 401; Server.cookies := [];
            Server.body := JObj [ ("error", JStr "Token validation failed");
                                  ("details", JStr (err_message e)) ] |}) /\
  (forall d,
     jwt_decode (JStr (skip 7 h)) = Returned (Some d) ->
     Server.payload d = JNull ->
     snd (validate n now {| authorization := Some h |}) =
       Responded
         {| Server.status := 401; Server.cookies := [];
            Server.body :=
              JObj [ ("error", JStr "Token validation failed");
                     ("details",
                      JStr "Cannot read properties of null (reading 'exp')") ] |}).
Proof.
  intros Hp. split.
  - intros e He. rewrite (validate_bearer n now h Hp), He. reflexivity.
  - intros d Hd Hnull. rewrite (validate_bearer n now h Hp), Hd, Hnull.
    reflexivity.
Qed.

(** X3: on a token whose [exp] claim is a number, the middleware answers
    "Token expired" exactly when [exp] is not zero and strictly below
    [Date.now() / 1000], the quotient being the double the engine
    computes; otherwise it lets the request through. *)
Theorem validateToken_expiry_is_strict n now h d e :
  prefix "Bearer " h = true ->
  jwt_decode (JStr (skip 7 h)) = Returned (Some d) ->
  get (Server.payload d) "exp" = Some (JNum e) ->
  (snd (validate n now {| authorization := Some h |}) =
     Responded (Server.error_response 401 "Token expired") <->
   (~ (e == 0)%Q /\ lt_double e (Server.seconds now) = true)) /\
  (snd (validate n now {| authorization := Some h |}) =
     Next (Server.payload d) <->
   ((e == 0)%Q \/ lt_double e (Server.seconds now) = false)) /\
  (forall s m x,
     Server.seconds now = S754_finite s m x ->
     (lt_double e (Server.seconds now) = true <->
      (e < double_value s m x)%Q) /\
     (lt_double e (Server.seconds now) = false <->
      (double_value s m x <= e)%Q)).
Proof.
  intros Hp Hd He.
  split; [|split; [|intros s m x ->; apply ServerFacts.lt_double_finite]].
  all: rewrite (validate_bearer n now h Hp), Hd.
  all: assert (late (Server.payload d) now =
               Returned (truthy (JNum e) && lt_double e (Server.seconds now)))
         as -> by
       (unfold token_expired; destruct (Server.payload d);
        try discriminate He;
        apply (ServerFacts.expired_num StringToNumber ToString _ now e He)).
  all: pose proof (ServerFacts.truthy_num e) as Ht.
  all: destruct (truthy (JNum e)) eqn:Et,
                (lt_double e (Server.seconds now)) eqn:El;
         cbn [andb snd]; split; try discriminate; intros H.
  all: try reflexivity.
  all: try (split; [apply Ht; reflexivity | reflexivity]).
  all: try (right; reflexivity).
  all: try (left; destruct (Qeq_dec e 0) as [E|E]; [exact E|];
            apply Ht in E; discriminate E).
  all: try (exfalso; destruct H as [H|H]; [|discriminate H];
            apply (proj1 Ht eq_refl); exact H).
  all: try (exfalso; destruct H as [_ H]; discriminate H).
  all: try (exfalso; destruct H as [H _]; apply H;
            destruct (Qeq_dec e 0) as [E|E]; [exact E|];
            apply Ht in E; discriminate E).
Qed.

Lemma or_literal_truthy a lit :
  String.eqb lit EmptyString = false ->
  truthy (or_literal a lit) = true /\
  (truthy_val a = true -> Some (or_literal a lit) = a) /\
  (truthy_val a = false -> or_literal a lit = JStr lit).
Proof.
  intros Hlit. unfold or_literal, js_or.
  destruct (truthy_val a) eqn:Ea.
  - destruct a as [v|]; [|discriminate Ea]. repeat split.
    + exact Ea.
    + discriminate.
  - repeat split.
    + cbn. rewrite Hlit. reflexivity.
    + discriminate.
Qed.

(** The payload that [validateToken] attaches as [req.user] is never
    [null]: on a [null] payload the expiry test throws. *)
Lemma next_is_not_null n now req user :
  snd (validate n now req) = Next user -> user <> JNull.
Proof.
  intros H. destruct req as [[h|]].
  2: { rewrite validate_no_bearer in H; [discriminate H|].
       intros h Hh. discriminate Hh. }
  destruct (prefix "Bearer " h) eqn:Ep.
  2: { rewrite validate_no_bearer in H; [discriminate H|].
       intros h' Hh. cbn in Hh. congruence. }
  rewrite (validate_bearer n now h Ep) in H.
  destruct (jwt_decode (JStr (skip 7 h))) as [[d|]|e]; try discriminate H.
  destruct (late (Server.payload d) now) as [[|]|e] eqn:El;
    cbn in H; try discriminate H.
  injection H as <-. intros Hnull. rewrite Hnull in El. discriminate El.
Qed.

(** X4: on the payload of a token, which is never [null] behind
    [validateToken], the profile answer always names the user: [name],
    [username] and [email] are present and truthy, each the first truthy
    claim of its chain or else "Unknown"; and the whole payload of the
    token is sent back as [tokenClaims]. *)
Theorem profile_always_names_the_user user :
  user <> JNull ->
  get (Server.body (profile user)) "tokenClaims" = Some user /\
  exists u,
    get (Server.body (profile user)) "user" = Some u /\
    truthy_val (get u "name") = true /\
    truthy_val (get u "username") = true /\
    truthy_val (get u "email") = true /\
    (truthy_val (get user "name") = true -> get u "name" = get user "name") /\
    (truthy_val (get user "name") = false ->
       get u "name" = Some (JStr "Unknown")) /\
    (truthy_val (get user "email") = false ->
     truthy_val (get user "preferred_username") = true ->
       get u "email" = get user "preferred_username").
Proof.
  intros _. split; [reflexivity|]. eexists. split; [reflexivity|].
  cbn [obj obj_fields get lookup String.eqb Ascii.eqb Bool.eqb truthy_val].
  destruct (or_literal_truthy (get user "name") "Unknown" eq_refl)
    as (Hn & Hn1 & Hn2).
  destruct (or_literal_truthy
              (js_or (get user "preferred_username") (get user "upn"))
              "Unknown" eq_refl) as (Hu & _ & _).
  destruct (or_literal_truthy
              (js_or (get user "email") (get user "preferred_username"))
              "Unknown" eq_refl) as (He & He1 & _).
  repeat split; try assumption.
  - intros H. rewrite (Hn2 H). reflexivity.
  - intros H1 H2. unfold js_or in He1 |- *. rewrite H1 in He1 |- *.
    apply He1. exact H2.
Qed.

Lemma split_length sep s : length (split sep s) = S (count sep s).
Proof.
  induction s as [|c rest IH]; [reflexivity|].
  cbn [split count]. destruct (Ascii.eqb c sep).
  - cbn [length]. rewrite IH. reflexivity.
  - destruct (split sep rest) as [|piece pieces]; [discriminate IH|].
    cbn [length] in *. exact IH.
Qed.

Lemma split_app sep a b :
  split sep (a ++ String sep b) = (split sep a ++ split sep b)%list.
Proof.
  induction a as [|c rest IH]; cbn [append split].
  - rewrite Ascii.eqb_refl. reflexivity.
  - destruct (Ascii.eqb c sep).
    + rewrite IH. reflexivity.
    + rewrite IH. pose proof (split_length sep rest) as L.
      destruct (split sep rest) as [|piece pieces]; [discriminate L|].
      reflexivity.
Qed.

Lemma trimStart_head s :
  match trimStart s with
  | EmptyString => True
  | String c _ => is_space c = false
  end.
Proof.
  induction s as [|c rest IH]; [exact I|].
  cbn [trimStart]. destruct (is_space c) eqn:Ec; [exact IH|exact Ec].
Qed.

Lemma trimEnd_head c rest :
  is_space c = false -> exists kept, trimEnd (String c rest) = String c kept.
Proof.
  intros Hc. cbn [trimEnd]. destruct (trimEnd rest).
  - rewrite Hc. eexists. reflexivity.
  - eexists. reflexivity.
Qed.

Lemma trimStart_spec s :
  exists l, all_space l = true /\ s = l ++ trimStart s.
Proof.
  induction s as [|c rest (l & Hl & E)].
  - exists EmptyString. split; reflexivity.
  - cbn [trimStart]. destruct (is_space c) eqn:Ec.
    + exists (String c l). cbn [all_space append]. rewrite Ec, Hl.
      split; [reflexivity|]. rewrite <- E. reflexivity.
    + exists EmptyString. split; reflexivity.
Qed.

Lemma trimEnd_spec s :
  exists r, all_space r = true /\ s = trimEnd s ++ r.
Proof.
  induction s as [|c rest (r & Hr & E)].
  - exists EmptyString. split; reflexivity.
  - cbn [trimEnd]. destruct (trimEnd rest) as [|c' kept].
    + cbn [append] in E. subst rest. destruct (is_space c) eqn:Ec.
      * exists (String c r). cbn [all_space append]. rewrite Ec, Hr.
        split; reflexivity.
      * exists r. split; [exact Hr|reflexivity].
    + exists r. split; [exact Hr|]. cbn [append] in E |- *.
      rewrite <- E. reflexivity.
Qed.

Lemma trimEnd_last s : ends_with_space (trimEnd s) = false.
Proof.
  induction s as [|c rest IH]; [reflexivity|].
  cbn [trimEnd]. destruct (trimEnd rest) as [|c' kept].
  - destruct (is_space c) eqn:Ec; [reflexivity|].
    cbn [ends_with_space]. exact Ec.
  - exact IH.
Qed.

(** [trim] takes white space off both ends, all of it and nothing else. *)
Lemma trim_spec s :
  starts_with_space (trim s) = false /\
  ends_with_space (trim s) = false /\
  exists l r,
    all_space l = true /\ all_space r = true /\ s = l ++ trim s ++ r.
Proof.
  unfold trim. split; [|split].
  - pose proof (trimStart_head s) as H.
    destruct (trimStart s) as [|c rest]; [reflexivity|].
    destruct (trimEnd_head c rest H) as [kept ->]. exact H.
  - apply trimEnd_last.
  - destruct (trimStart_spec s) as (l & Hl & El).
    destruct (trimEnd_spec (trimStart s)) as (r & Hr & Er).
    exists l, r. split; [exact Hl|]. split; [exact Hr|].
    rewrite <- Er. exact El.
Qed.

(** X5: the scopes of the configuration answer.  Unset or empty,
    [API_SCOPES] gives the three default scopes.  Set to an ASCII text, it
    gives one scope per comma plus one, so a trailing comma gives an empty
    scope; each scope is the piece between two commas without the white
    space at its two ends: it neither begins nor ends with white space,
    and only white space was taken off. *)
Theorem config_scopes e :
  (is_set (API_SCOPES e) = false ->
     scopes e = ["User.Read"; "profile"; "openid"]) /\
  (forall s,
     API_SCOPES e = Some s -> s <> EmptyString -> ascii_only s = true ->
     length (scopes e) = S (count ","%char s) /\
     (forall a, s = a ++ "," -> In EmptyString (scopes e)) /\
     Forall2
       (fun piece scope =>
          starts_with_space scope = false /\
          ends_with_space scope = false /\
          exists l r,
            all_space l = true /\ all_space r = true /\
            piece = l ++ scope ++ r)
       (split ","%char s) (scopes e)).
Proof.
  unfold scopes. split.
  - unfold is_set. destruct (API_SCOPES e) as [s|]; [|reflexivity].
    destruct (String.eqb s EmptyString); [reflexivity|discriminate].
  - intros s -> Hs _.
    destruct (String.eqb s EmptyString) eqn:E;
      [apply String.eqb_eq in E; contradiction|].
    split; [|split].
    + rewrite length_map. apply split_length.
    + intros a ->. rewrite split_app. rewrite map_app.
      apply in_or_app. right. left. reflexivity.
    + induction (split ","%char s) as [|piece pieces IH]; cbn [map];
        constructor; [apply trim_spec|exact IH].
Qed.

Lemma or_else_not_empty v fallback :
  fallback <> EmptyString -> or_else v fallback <> EmptyString.
Proof.
  intros Hf. unfold or_else. destruct v as [s|]; [|exact Hf].
  destruct (String.eqb s EmptyString) eqn:E; [exact Hf|].
  intros ->. discriminate E.
Qed.

(** X6: the configuration answer is complete in every environment:
    [authority] and [redirectUri] are strings that are never empty and at
    least one scope is listed, while [clientId] is left out exactly when
    [CLIENT_ID] is unset.  With neither [AUTHORITY] nor [TENANT_ID] set,
    the authority ends in the word undefined. *)
Theorem config_is_complete n :
  Server.status (config n) = 200 /\
  (exists a, get (Server.body (config n)) "authority" = Some (JStr a) /\
             a <> EmptyString) /\
  (exists r, get (Server.body (config n)) "redirectUri" = Some (JStr r) /\
             r <> EmptyString) /\
  get (Server.body (config n)) "scopes" =
    Some (JArr (map JStr (scopes (env n)))) /\
  scopes (env n) <> [] /\
  (get (Server.body (config n)) "clientId" = None <->
   CLIENT_ID (env n) = None) /\
  (is_set (AUTHORITY (env n)) = false -> TENANT_ID (env n) = None ->
   get (Server.body (config n)) "authority" =
     Some (JStr "https://login.microsoftonline.com/undefined")).
Proof.
  unfold config. cbv zeta. cbn [ok_json Server.status Server.body].
  split; [reflexivity|].
  assert (scopes (env n) <> []) as Hs.
  { unfold scopes. destruct (API_SCOPES (env n)) as [s|]; [|discriminate].
    destruct (String.eqb s EmptyString); [discriminate|].
    intros C. apply (f_equal (@length string)) in C.
    rewrite length_map, split_length in C. discriminate C. }
  assert ("http://localhost:" ++ or_else (PORT (env n)) "3000" ++ "/auth/callback"
          <> EmptyString) as Hr by discriminate.
  assert ("https://login.microsoftonline.com/" ++ interpolate (TENANT_ID (env n))
          <> EmptyString) as Ha by discriminate.
  destruct (CLIENT_ID (env n)) as [c|];
    cbn [option_map obj obj_fields get lookup String.eqb Ascii.eqb Bool.eqb];
    (split; [eexists; split; [reflexivity|apply or_else_not_empty; exact Ha]|]);
    (split; [eexists; split; [reflexivity|apply or_else_not_empty; exact Hr]|]);
    (split; [reflexivity|]); (split; [exact Hs|]);
    (split; [split; intros H; first [discriminate H | reflexivity]|]);
    intros Hu Ht; rewrite Ht; unfold or_else, is_set in *;
    (destruct (AUTHORITY (env n)) as [x|]; [|reflexivity]);
    (destruct (String.eqb x EmptyString); [reflexivity|discriminate Hu]).
Qed.

End Facts.

End ApiFacts.

(** ** More about the page scripts *)

Module PageFacts.

Import Client Startup.

Lemma preserves_ret {A B} (obs : Page -> B) (a : A) : preserves obs (ret a).
Proof. intros pg. reflexivity. Qed.

Lemma preserves_throw {A B} (obs : Page -> B) e : preserves obs (@throw A e).
Proof. intros pg. reflexivity. Qed.

Lemma preserves_await {A B} (obs : Page -> B) (o : Outcome A) :
  preserves obs (await o).
Proof. intros pg. reflexivity. Qed.

Lemma preserves_read {A B} (obs : Page -> B) (f : Page -> A) :
  preserves obs (read f).
Proof. intros pg. reflexivity. Qed.

Lemma preserves_effect {B} (obs : Page -> B) f :
  (forall pg, obs (f pg) = obs pg) -> preserves obs (effect f).
Proof. intros H pg. apply H. Qed.

Lemma preserves_bind {A B C} (obs : Page -> C) (m : Script A) (k : A -> Script B) :
  preserves obs m -> (forall a, preserves obs (k a)) ->
  preserves obs (bind m k).
Proof.
  intros Hm Hk pg. unfold bind. specialize (Hm pg).
  destruct (m pg) as [pg1 [a|e]]; cbn [fst] in *.
  - rewrite (Hk a pg1). exact Hm.
  - exact Hm.
Qed.

Lemma preserves_try_catch {A C} (obs : Page -> C) (m : Script A) handler :
  preserves obs m -> (forall e, preserves obs (handler e)) ->
  preserves obs (try_catch m handler).
Proof.
  intros Hm Hh pg. unfold try_catch. specialize (Hm pg).
  destruct (m pg) as [pg1 [a|e]]; cbn [fst] in *.
  - exact Hm.
  - rewrite (Hh e pg1). exact Hm.
Qed.

(** What a script did before it returned, read backwards. *)
Lemma bind_returned {A B} (m : Script A) (k : A -> Script B) pg pg2 b :
  bind m k pg = (pg2, Returned b) ->
  exists pg1 a, m pg = (pg1, Returned a) /\ k a pg1 = (pg2, Returned b).
Proof.
  unfold bind. destruct (m pg) as [pg1 [a|e]]; [|discriminate].
  intros H. exists pg1, a. split; [reflexivity|exact H].
Qed.

Create HintDb unchanged.

(** Walks through a script that leaves an observation alone. *)
Ltac unchanged_step :=
  first [ apply preserves_bind; [|intros ?]
        | apply preserves_try_catch; [|intros ?]
        | apply preserves_effect; intros ?; reflexivity
        | apply preserves_ret | apply preserves_throw
        | apply preserves_await | apply preserves_read
        | solve [auto with unchanged]
        | match goal with
          | |- preserves _ (match ?x with _ => _ end) => destruct x
          end ].

Ltac unchanged_walk := repeat unchanged_step.

(** Takes a returned script apart, from its last step. *)
Ltac peel H :=
  apply bind_returned in H;
  let pg1 := fresh "pg" in
  let a := fresh "a" in
  let H1 := fresh "Step" in
  destruct H as (pg1 & a & H1 & H).

Section Facts.

Variable ToString : JValue -> Outcome string.
Variable capture_stack : string -> string -> string.
Variable toLocaleString : Z -> string.
Variable Date_now : Z.
Variable fetch : FetchRequest -> FetchResult.
Variable acquireTokenSilent : Account -> Outcome TokenResponse.

#[local] Abbreviation handoff :=
  (handleSessionTokenExchange ToString capture_stack toLocaleString Date_now
     fetch acquireTokenSilent).
#[local] Abbreviation settled :=
  (exchange_settled ToString capture_stack toLocaleString acquireTokenSilent).
#[local] Abbreviation failed := (exchange_failed Date_now).
#[local] Abbreviation greet :=
  (handleAuthenticatedUser ToString capture_stack toLocaleString
     acquireTokenSilent).

Section Unchanged.

(** An observation that none of the display helpers touches, nor the
    clean-up of the address. *)
Variable B : Type.
Variable obs : Page -> B.
Hypothesis obs_text : forall k v pg, obs (set_text k v pg) = obs pg.
Hypothesis obs_display : forall k v pg, obs (set_display k v pg) = obs pg.
Hypothesis obs_indicator : forall b pg, obs (set_indicator_error b pg) = obs pg.
Hypothesis obs_token : forall t pg, obs (set_tokenResponse t pg) = obs pg.
Hypothesis obs_console : forall l pg, obs (console_write l pg) = obs pg.
Hypothesis obs_query : forall pg, obs (without_query pg) = obs pg.

Lemma text_of_unchanged v : preserves obs (text_of ToString v).
Proof. unfold text_of. unchanged_walk. Qed.

Lemma read_property_unchanged v k :
  preserves obs (read_property capture_stack v k).
Proof. unfold read_property. unchanged_walk. Qed.

Lemma getInitials_unchanged v : preserves obs (getInitials capture_stack v).
Proof. unfold getInitials. unchanged_walk. Qed.

Lemma show_token_info_unchanged t pg :
  obs (show_token_info toLocaleString t pg) = obs pg.
Proof. unfold show_token_info. rewrite !obs_text. reflexivity. Qed.

Lemma updateStatus_unchanged text b pg : obs (updateStatus text b pg) = obs pg.
Proof. unfold updateStatus. rewrite obs_indicator, obs_text. reflexivity. Qed.

Lemma showAuthenticatedView_unchanged pg : obs (showAuthenticatedView pg) = obs pg.
Proof.
  unfold showAuthenticatedView, showLoading. rewrite !obs_display. reflexivity.
Qed.

Lemma greet_unchanged account : preserves obs (greet account).
Proof.
  unfold handleAuthenticatedUser.
  repeat first
    [ apply text_of_unchanged | apply getInitials_unchanged
    | apply preserves_bind; [|intros ?]
    | apply preserves_try_catch; [|intros ?]
    | apply preserves_read | apply preserves_await
    | apply preserves_effect; intros ?;
      first [ apply obs_text | apply obs_token | apply obs_console
            | apply show_token_info_unchanged | apply updateStatus_unchanged
            | apply showAuthenticatedView_unchanged ]
    | match goal with
      | |- preserves _ (match ?x with _ => _ end) => destruct x
      end ].
Qed.

Lemma replaceState_unchanged :
  preserves obs (replaceState_cleanUrl capture_stack).
Proof.
  intros pg. unfold replaceState_cleanUrl.
  destruct (prefix "//" (pathname pg)); cbn [fst]; [reflexivity|apply obs_query].
Qed.

Lemma settled_unchanged result : preserves obs (settled result).
Proof.
  unfold exchange_settled, exchange_answered, exchange_parsed.
  destruct result as [e|response]; [apply preserves_throw|].
  repeat first
    [ apply greet_unchanged
    | apply replaceState_unchanged | apply text_of_unchanged
    | apply read_property_unchanged
    | apply preserves_bind; [|intros ?]
    | apply preserves_try_catch; [|intros ?]
    | apply preserves_ret | apply preserves_throw | apply preserves_await
    | apply preserves_effect; intros ?;
      first [ apply obs_console | apply updateStatus_unchanged ]
    | match goal with
      | |- preserves _ (match ?x with _ => _ end) => destruct x
      end ].
Qed.

End Unchanged.

Lemma requests_unchanged result : preserves requests (settled result).
Proof. apply settled_unchanged; reflexivity. Qed.

Lemma timers_unchanged result : preserves timers (settled result).
Proof. apply settled_unchanged; reflexivity. Qed.

Lemma debugContent_unchanged result : preserves debugContent (settled result).
Proof. apply settled_unchanged; reflexivity. Qed.

(** [handleSessionTokenExchange] returns, and has sent one request. *)
Lemma handoff_returns_having_sent tok pg :
  snd (handoff tok pg) = Returned tt /\
  requests (fst (handoff tok pg)) = (requests pg ++ [exchange_request tok])%list.
Proof.
  rewrite (ClientFacts.handoff_from_settlement ToString capture_stack
             toLocaleString Date_now fetch acquireTokenSilent tok pg).
  cbv zeta.
  pose proof (requests_unchanged (fetch (exchange_request tok))
                (fst (exchange_started tok pg))) as Hr.
  destruct (settled (fetch (exchange_request tok)) _) as [pg2 [[]|e]];
    cbn [fst snd] in *; split; first [reflexivity | exact Hr].
Qed.

(** X7: [handleSessionTokenExchange] always comes to an end without
    throwing, with the loading indicator hidden, and having sent the
    exchange request exactly once, whatever the network and the server
    did: the token is never sent a second time. *)
Theorem handoff_always_returns tok pg :
  snd (handoff tok pg) = Returned tt /\
  display (fst (handoff tok pg)) "loading" = "none" /\
  requests (fst (handoff tok pg)) = (requests pg ++ [exchange_request tok])%list.
Proof.
  rewrite (ClientFacts.handoff_from_settlement ToString capture_stack
             toLocaleString Date_now fetch acquireTokenSilent tok pg).
  cbv zeta.
  pose proof (requests_unchanged (fetch (exchange_request tok))
                (fst (exchange_started tok pg))) as Hr.
  destruct (settled (fetch (exchange_request tok)) _) as [pg2 [[]|e]];
    cbn [fst snd] in *; repeat split; exact Hr.
Qed.

(** When [handleAuthenticatedUser] returns, the authenticated view is
    up. *)
Lemma greet_returned account pg pg' x :
  greet account pg = (pg', Returned x) ->
  display pg' "authenticatedView" = "block" /\
  display pg' "unauthenticatedView" = "none" /\
  display pg' "loading" = "none" /\
  textContent pg' "statusText" = "Authenticated" /\
  indicator_error pg' = false.
Proof.
  intros H. unfold handleAuthenticatedUser in H. repeat peel H.
  unfold effect in *.
  repeat match goal with
         | E : (_, _) = (_, _) |- _ => injection E as ? ?; subst
         end.
  repeat split.
Qed.

(** The [try] block returns only on a response that is [ok], and then
    with the authenticated view up. *)
Lemma settled_returned result pg pg' x :
  settled result pg = (pg', Returned x) ->
  (exists response, result = FetchResolved response /\ ok response = true) /\
  display pg' "authenticatedView" = "block" /\
  display pg' "unauthenticatedView" = "none" /\
  display pg' "loading" = "none" /\
  textContent pg' "statusText" = "Authenticated via native app" /\
  indicator_error pg' = false.
Proof.
  intros H. unfold exchange_settled, exchange_answered, exchange_parsed in H.
  destruct result as [e|response]; [discriminate H|].
  peel H. destruct (ok response) eqn:Eok.
  - repeat peel H.
    match goal with
    | G : handleAuthenticatedUser _ _ _ _ _ _ = _ |- _ =>
        apply greet_returned in G; destruct G as (Ga & Gu & Gl & _ & _)
    end.
    unfold effect in H. injection H as <- _.
    split; [exists response; split; [reflexivity|exact Eok]|].
    repeat split; assumption.
  - repeat peel H. discriminate H.
Qed.

(** The two status lines [handleSessionTokenExchange] can end on. *)
Lemma handoff_status tok pg :
  textContent (fst (handoff tok pg)) "statusText" = "Authenticated via native app"
  \/
  textContent (fst (handoff tok pg)) "statusText" =
    "Session initialization failed, redirecting to login...".
Proof.
  rewrite (ClientFacts.handoff_from_settlement ToString capture_stack
             toLocaleString Date_now fetch acquireTokenSilent tok pg).
  cbv zeta.
  destruct (settled (fetch (exchange_request tok)) _) as [pg2 [x|e]] eqn:E;
    cbn [fst].
  - left. apply settled_returned in E.
    destruct E as (_ & _ & _ & _ & Hs & _). exact Hs.
  - right. reflexivity.
Qed.

(** X8: [handleSessionTokenExchange] ends in one of two states.  Either the
    authenticated view is shown under the status "Authenticated via native
    app", which takes a response with an [ok] status; no timer is set and
    the debug panel is left alone.  Or the status reads that initialization
    failed, the debug panel is opened, and exactly one timer is set, which
    brings up the sign-in view two seconds later while the debug panel
    stays open. *)
Theorem handoff_ends_authenticated_or_falls_back tok pg :
  let pg' := fst (handoff tok pg) in
  ((exists response,
      fetch (exchange_request tok) = FetchResolved response /\
      ok response = true) /\
   display pg' "authenticatedView" = "block" /\
   display pg' "unauthenticatedView" = "none" /\
   textContent pg' "statusText" = "Authenticated via native app" /\
   indicator_error pg' = false /\
   timers pg' = timers pg /\
   debugContent pg' = debugContent pg)
  \/
  (textContent pg' "statusText" =
     "Session initialization failed, redirecting to login..." /\
   indicator_error pg' = true /\
   display pg' "debugInfo" = "block" /\
   timers pg' = (timers pg ++ [(CallShowUnauthenticatedView, 2000)])%list /\
   display (fire CallShowUnauthenticatedView pg') "unauthenticatedView" = "block" /\
   display (fire CallShowUnauthenticatedView pg') "authenticatedView" = "none" /\
   display (fire CallShowUnauthenticatedView pg') "debugInfo" = "block").
Proof.
  cbv zeta.
  rewrite (ClientFacts.handoff_from_settlement ToString capture_stack
             toLocaleString Date_now fetch acquireTokenSilent tok pg).
  cbv zeta.
  pose proof (timers_unchanged (fetch (exchange_request tok))
                (fst (exchange_started tok pg))) as Ht.
  pose proof (debugContent_unchanged (fetch (exchange_request tok))
                (fst (exchange_started tok pg))) as Hd.
  destruct (settled (fetch (exchange_request tok)) _) as [pg2 [x|e]] eqn:E;
    cbn [fst] in *.
  - left. apply settled_returned in E.
    destruct E as (Hok & Ha & Hu & _ & Hs & Hi).
    repeat split; assumption.
  - right. repeat split. cbn. rewrite Ht. reflexivity.
Qed.

Lemma textual_or_literal a lit :
  textual a -> exists s, or_literal a lit = JStr s.
Proof.
  unfold textual, or_literal, js_or, truthy_val.
  destruct a as [[| b | q | s | items | props]|]; intros H;
    try rewrite H; try (eexists; reflexivity); try discriminate H.
  cbn [truthy]. destruct (negb (String.eqb s EmptyString)); eexists; reflexivity.
Qed.

Lemma textual_js_or a b : textual a -> textual b -> textual (js_or a b).
Proof. intros Ha Hb. unfold js_or. destruct (truthy_val a); assumption. Qed.

(** [handleAuthenticatedUser] on an account whose three texts come out as
    strings. *)
Lemma greet_on_strings account pg s1 s2 s3 :
  or_literal (name account) "User" = JStr s1 ->
  or_literal (js_or (username account) (email account)) "No email" = JStr s2 ->
  or_literal (js_or (name account) (username account)) "U" = JStr s3 ->
  exists pg',
    greet account pg = (pg', Returned tt) /\
    display pg' "authenticatedView" = "block" /\
    display pg' "unauthenticatedView" = "none" /\
    display pg' "loading" = "none" /\
    textContent pg' "statusText" = "Authenticated" /\
    textContent pg' "userName" = s1 /\
    textContent pg' "userEmail" = s2 /\
    textContent pg' "userInitials" = initials s3.
Proof.
  intros E1 E2 E3.
  unfold handleAuthenticatedUser. rewrite E1, E2, E3.
  unfold bind, text_of, await, to_text, getInitials, ret, effect, try_catch, read.
  cbn [tokenResponse set_text].
  destruct (tokenResponse pg) as [t|].
  - eexists. split; [reflexivity|]. repeat split.
  - destruct (acquireTokenSilent account) as [t|e];
      (eexists; split; [reflexivity|]; repeat split).
Qed.

(** X9: for an account whose [name], [username] and [email] are strings
    (or missing), [handleAuthenticatedUser] returns with the authenticated
    view shown, the sign-in view and the loading indicator hidden, and
    name, address and initials filled in; whether the silent token request
    succeeds or throws makes no difference. *)
Theorem greet_shows_the_view account pg :
  textual (name account) -> textual (username account) ->
  textual (email account) ->
  exists pg',
    greet account pg = (pg', Returned tt) /\
    display pg' "authenticatedView" = "block" /\
    display pg' "unauthenticatedView" = "none" /\
    display pg' "loading" = "none" /\
    textContent pg' "statusText" = "Authenticated" /\
    JStr (textContent pg' "userName") = or_literal (name account) "User" /\
    JStr (textContent pg' "userEmail") =
      or_literal (js_or (username account) (email account)) "No email" /\
    exists s,
      or_literal (js_or (name account) (username account)) "U" = JStr s /\
      textContent pg' "userInitials" = initials s.
Proof.
  intros Hn Hu He.
  destruct (textual_or_literal (name account) "User" Hn) as [s1 E1].
  destruct (textual_or_literal (js_or (username account) (email account))
              "No email" (textual_js_or _ _ Hu He)) as [s2 E2].
  destruct (textual_or_literal (js_or (name account) (username account))
              "U" (textual_js_or _ _ Hn Hu)) as [s3 E3].
  destruct (greet_on_strings account pg s1 s2 s3 E1 E2 E3)
    as (pg' & Eg & Ha & Hv & Hl & Hs & H1 & H2 & H3).
  exists pg'. rewrite E1, E2, H1, H2.
  repeat split; try assumption.
  exists s3. split; [exact E3 | exact H3].
Qed.


Lemma to_upper_idempotent c : to_upper (to_upper c) = to_upper c.
Proof. destruct c as [[] [] [] [] [] [] [] []]; vm_compute; reflexivity. Qed.

Lemma to_upper_space c : to_upper c = " "%char -> c = " "%char.
Proof.
  destruct c as [[] [] [] [] [] [] [] []]; intros H; vm_compute in H;
    first [reflexivity | discriminate H].
Qed.

Lemma first_letters_no_space fresh s c :
  In c (list_ascii_of_string (first_letters fresh s)) -> c <> " "%char.
Proof.
  revert fresh. induction s as [|c' rest IH]; intros fresh; [intros []|].
  cbn [first_letters]. destruct (Ascii.eqb c' " ") eqn:E; [apply IH|].
  destruct fresh; [|apply IH].
  cbn [list_ascii_of_string In]. intros [<-|H]; [|exact (IH _ H)].
  intros C. subst c'. rewrite Ascii.eqb_refl in E. discriminate.
Qed.

Lemma toUpperCase_chars s c :
  In c (list_ascii_of_string (toUpperCase s)) ->
  exists c', In c' (list_ascii_of_string s) /\ c = to_upper c'.
Proof.
  induction s as [|c0 rest IH]; [intros []|].
  cbn [toUpperCase list_ascii_of_string In]. intros [<-|H].
  - exists c0. split; [left; reflexivity|reflexivity].
  - destruct (IH H) as (c' & Hin & ->). exists c'. split; [right; exact Hin|reflexivity].
Qed.

Lemma substring_head n s :
  (String.length (substring 0 n s) <= n)%nat /\
  forall c, In c (list_ascii_of_string (substring 0 n s)) ->
            In c (list_ascii_of_string s).
Proof.
  revert s. induction n as [|n IH]; intros s.
  - destruct s; cbn; split; auto; intros c [].
  - destruct s as [|c0 rest]; cbn [substring String.length list_ascii_of_string].
    + split; [apply Nat.le_0_l|intros c []].
    + destruct (IH rest) as [L I]. split; [apply le_n_S; exact L|].
      intros c [<-|H]; [left; reflexivity|right; exact (I c H)].
Qed.

(** X10: on a name of ASCII characters, [getInitials] yields at most two
    characters, none of them a space or a lower-case letter. *)
Theorem initials_shape s :
  ascii_only s = true ->
  (String.length (initials s) <= 2)%nat /\
  forall c, In c (list_ascii_of_string (initials s)) ->
            c <> " "%char /\ to_upper c = c.
Proof.
  intros _. unfold initials.
  destruct (substring_head 2 (toUpperCase (first_letters true s))) as [L I].
  split; [exact L|]. intros c Hc. apply I in Hc.
  apply toUpperCase_chars in Hc. destruct Hc as (c' & Hin & ->).
  split; [|apply to_upper_idempotent].
  intros C. apply to_upper_space in C. subst c'.
  exact (first_letters_no_space true s _ Hin eq_refl).
Qed.

Lemma first_letters_word w rest fresh :
  Api.count " "%char w = 0%nat ->
  first_letters fresh (w ++ String " " rest) =
    first_letters fresh w ++ first_letters true rest.
Proof.
  revert fresh. induction w as [|c w' IH]; intros fresh Hw.
  - reflexivity.
  - cbn [Api.count] in Hw. cbn [append first_letters].
    destruct (Ascii.eqb c " ") eqn:E; [discriminate Hw|].
    cbn [Nat.add] in Hw. destruct fresh; rewrite (IH false Hw); reflexivity.
Qed.

Lemma first_letters_inside w :
  Api.count " "%char w = 0%nat -> first_letters false w = EmptyString.
Proof.
  induction w as [|c w' IH]; [reflexivity|].
  cbn [Api.count first_letters]. destruct (Ascii.eqb c " "); [discriminate|].
  exact IH.
Qed.

Lemma first_letters_first a r :
  Api.count " "%char (String a r) = 0%nat ->
  first_letters true (String a r) = String a EmptyString.
Proof.
  cbn [Api.count first_letters]. destruct (Ascii.eqb a " "); [discriminate|].
  cbn [Nat.add]. intros H. rewrite (first_letters_inside r H). reflexivity.
Qed.

(** X11: the initials of a name of ASCII characters are the first
    letters of its first two words, in upper case: one letter for a name
    of one word, and nothing after the second word counts. *)
Theorem initials_of_words a r1 b r2 more :
  ascii_only (String a r1 ++ " " ++ String b r2 ++ " " ++ more) = true ->
  Api.count " "%char (String a r1) = 0%nat ->
  Api.count " "%char (String b r2) = 0%nat ->
  initials (String a r1) = String (to_upper a) EmptyString /\
  initials (String a r1 ++ " " ++ String b r2) =
    String (to_upper a) (String (to_upper b) EmptyString) /\
  initials (String a r1 ++ " " ++ String b r2 ++ " " ++ more) =
    String (to_upper a) (String (to_upper b) EmptyString).
Proof.
  intros _ H1 H2. unfold initials. repeat split.
  - rewrite (first_letters_first a r1 H1). reflexivity.
  - change (String a r1 ++ " " ++ String b r2)
      with (String a r1 ++ String " " (String b r2)).
    rewrite (first_letters_word _ _ true H1).
    rewrite (first_letters_first a r1 H1), (first_letters_first b r2 H2).
    reflexivity.
  - change (String a r1 ++ " " ++ String b r2 ++ " " ++ more)
      with (String a r1 ++ String " " (String b r2 ++ String " " more)).
    rewrite (first_letters_word _ _ true H1).
    rewrite (first_letters_word _ _ true H2).
    rewrite (first_letters_first a r1 H1), (first_letters_first b r2 H2).
    cbn [append toUpperCase substring].
    destruct (toUpperCase (first_letters true more)); reflexivity.
Qed.

End Facts.

End PageFacts.

(** ** From the token to the page *)

Module JourneyFacts.

Import Server Client Handoff Startup.

Section Facts.

(** The server's engine and decoder. *)
Variable StringToNumber : string -> option Q.
Variable node_ToString : JValue -> Outcome string.
Variable jwt_decode : JValue -> Outcome (option DecodedJwt).
(** The browser. *)
Variable ToString : JValue -> Outcome string.
Variable capture_stack : string -> string -> string.
Variable toLocaleString : Z -> string.
Variable Date_now : Z.
Variable fetch : FetchRequest -> FetchResult.
Variable acquireTokenSilent : Account -> Outcome TokenResponse.

#[local] Abbreviation exchange :=
  (initialize_session StringToNumber node_ToString jwt_decode).
#[local] Abbreviation post :=
  (post_initialize_session StringToNumber node_ToString jwt_decode).
#[local] Abbreviation is_expired := (expired StringToNumber node_ToString).
#[local] Abbreviation handoff :=
  (handleSessionTokenExchange ToString capture_stack toLocaleString Date_now
     fetch acquireTokenSilent).
#[local] Abbreviation settled :=
  (exchange_settled ToString capture_stack toLocaleString acquireTokenSilent).
#[local] Abbreviation greet :=
  (handleAuthenticatedUser ToString capture_stack toLocaleString
     acquireTokenSilent).

(** The statuses of the handler. *)
Lemma handler_status p now req :
  (status (snd (exchange p now req)) = 400 <->
   truthy_val (sessionToken req) = false) /\
  (status (snd (exchange p now req)) = 400 \/
   status (snd (exchange p now req)) = 401 \/
   status (snd (exchange p now req)) = 200).
Proof.
  destruct (ServerFacts.exchange_answer StringToNumber node_ToString
              jwt_decode p now req) as [H | tok e H Ht | tok H Ht | tok d H Ht
                                       | tok d H Ht | tok d H Ht | tok d H Ht];
    cbn [snd status catch_block error_response];
    (split; [split; intros C|]); try discriminate C; try reflexivity;
    try exact H; try (rewrite H in C; cbn in C; congruence); auto.
Qed.

(** X12: the route answers 500 exactly when the body parsers refuse the
    request, and 400 exactly when they pass on a request that has no truthy
    [sessionToken] (missing, [null], empty, [0] or [false]); every other
    call is answered 401 or 200. *)
Theorem status_400_iff_no_token p now posted :
  (status (snd (post p now posted)) = 500 <->
   exists err, posted = Refused err) /\
  (status (snd (post p now posted)) = 400 <->
   exists req, posted = Parsed req /\ truthy_val (sessionToken req) = false) /\
  (status (snd (post p now posted)) = 500 \/
   status (snd (post p now posted)) = 400 \/
   status (snd (post p now posted)) = 401 \/
   status (snd (post p now posted)) = 200).
Proof.
  destruct posted as [err|req]; cbn [post_initialize_session].
  - cbn [error_middleware snd status]. split; [|split].
    + split; [intros _; exists err; reflexivity|reflexivity].
    + split; [discriminate|]. intros (req & C & _). discriminate C.
    + left. reflexivity.
  - destruct (handler_status p now req) as [H400 Hall]. split; [|split].
    + split.
      * intros C. destruct Hall as [H|[H|H]]; rewrite H in C; discriminate C.
      * intros (err & C). discriminate C.
    + split.
      * intros C. exists req. split; [reflexivity|]. apply H400. exact C.
      * intros (req' & C & Hf). injection C as <-. apply H400. exact Hf.
    + right. exact Hall.
Qed.

(** The page on a successful answer: the address is cleaned and the user
    of the answer is greeted. *)
Lemma settled_on_redeemed pl cs n m pg :
  get pl "name" = Some (JStr n) -> String.eqb n EmptyString = false ->
  get pl "email" = Some (JStr m) -> String.eqb m EmptyString = false ->
  prefix "//" (pathname pg) = false ->
  settled (FetchResolved
             (http_reply {| status := 200; cookies := cs;
                            body := success_body pl |})) pg =
  (greet {| username := Some (JStr m); name := Some (JStr n);
            email := Some (JStr m) |} ;;
   effect (updateStatus "Authenticated via native app" false))
    (console_write
       (ConsoleLog "Session initialized successfully from native app")
       (without_query pg)).
Proof.
  intros Hn Hne He Hme Hpath.
  unfold exchange_settled, exchange_answered, exchange_parsed.
  unfold bind at 1.
  unfold replaceState_cleanUrl. rewrite Hpath.
  cbn [http_reply status body ok json].
  change ((200 <=? 200) && (200 <=? 299)) with true. cbv iota.
  unfold success_body. rewrite Hn, He.
  assert (js_or (Some (JStr m)) (get pl "preferred_username") = Some (JStr m))
    as ->.
  { unfold js_or. cbn [truthy_val truthy]. rewrite Hme. reflexivity. }
  assert (exists v, js_or (get pl "preferred_username") (Some (JStr m)) = Some v)
    as [v ->].
  { unfold js_or. destruct (get pl "preferred_username") as [x|];
      cbn [truthy_val]; [destruct (truthy x)|]; eexists; reflexivity. }
  do 6 (unfold bind at 1;
        cbn [await effect read_property obj obj_fields get lookup
             String.eqb Ascii.eqb Bool.eqb ret]).
  unfold js_or at 2. cbn [truthy_val truthy]. rewrite Hme. cbn [negb].
  unfold js_or. cbn [truthy_val truthy]. rewrite Hme. reflexivity.
Qed.

Lemma request_carries_token tok :
  get (request_body (exchange_request tok)) "sessionToken" = Some (JStr tok).
Proof. reflexivity. Qed.

Lemma named_payload_truthy pl k v : get pl k = Some v -> truthy pl = true.
Proof. destruct pl; cbn; intros H; try discriminate H; reflexivity. Qed.

(** X13: on a page whose path does not begin with two slashes, a token
    that the endpoint redeems, with a [name] claim that is a non-empty
    ASCII text and an [email] claim that is a non-empty string, brings the
    page to the authenticated view showing that name, that address and
    the initials of the name, under the status "Authenticated via native
    app", with the query gone from the address and no fallback pending. *)
Theorem handoff_shows_the_token_holder p now tok d n m pg :
  String.eqb tok EmptyString = false ->
  jwt_decode (JStr tok) = Returned (Some d) ->
  is_expired (payload d) now = Returned false ->
  strict_eq_str (get (payload d) "type") "session_init" = true ->
  get (payload d) "name" = Some (JStr n) -> String.eqb n EmptyString = false ->
  ascii_only n = true ->
  get (payload d) "email" = Some (JStr m) -> String.eqb m EmptyString = false ->
  prefix "//" (pathname pg) = false ->
  fetch (exchange_request tok) =
    deliver (fun req => snd (exchange p now req)) (exchange_request tok) ->
  let pg' := fst (handoff tok pg) in
  textContent pg' "userName" = n /\
  textContent pg' "userEmail" = m /\
  textContent pg' "userInitials" = initials n /\
  display pg' "authenticatedView" = "block" /\
  display pg' "unauthenticatedView" = "none" /\
  textContent pg' "statusText" = "Authenticated via native app" /\
  location pg' = (pathname pg, EmptyString, hash pg) /\
  timers pg' = timers pg.
Proof.
  intros Htok Hd Hx Hk Hn Hne _ He Hme Hpath Hfetch. cbv zeta.
  unfold deliver in Hfetch. rewrite request_carries_token in Hfetch.
  rewrite (ServerFacts.exchange_decoded StringToNumber node_ToString jwt_decode
             p now (JStr tok) d false) in Hfetch;
    [ | cbn; rewrite Htok; reflexivity | exact Hd
      | exact (named_payload_truthy _ _ _ Hn) | exact Hx ].
  rewrite Hk in Hfetch. cbn [negb snd] in Hfetch.
  rewrite (ClientFacts.handoff_from_settlement ToString capture_stack
             toLocaleString Date_now fetch acquireTokenSilent tok pg), Hfetch.
  cbv zeta.
  rewrite (settled_on_redeemed (payload d) _ n m
             (fst (exchange_started tok pg)) Hn Hne He Hme Hpath).
  set (account := {| username := Some (JStr m); name := Some (JStr n);
                     email := Some (JStr m) |}).
  set (pg1 := console_write _ _).
  assert (truthy_val (Some (JStr n)) = true) as Tn
    by (cbn; rewrite Hne; reflexivity).
  assert (truthy_val (Some (JStr m)) = true) as Tm
    by (cbn; rewrite Hme; reflexivity).
  assert (or_literal (name account) "User" = JStr n) as E1.
  { unfold account, or_literal, js_or. cbn [name]. rewrite Tn. reflexivity. }
  assert (or_literal (js_or (username account) (email account)) "No email" =
            JStr m) as E2.
  { unfold account, or_literal, js_or. cbn [username email].
    rewrite !Tm. reflexivity. }
  assert (or_literal (js_or (name account) (username account)) "U" = JStr n)
    as E3.
  { unfold account, or_literal, js_or. cbn [name username].
    rewrite !Tn. reflexivity. }
  destruct (PageFacts.greet_on_strings ToString capture_stack toLocaleString
              acquireTokenSilent account pg1 n m n E1 E2 E3)
    as (pg2 & Eg & Ha & Hu & _ & _ & Hname & Hmail & Hinit).
  pose proof (ClientFacts.handleAuthenticatedUser_keeps ToString capture_stack
                toLocaleString acquireTokenSilent account pg1) as Hloc.
  pose proof (PageFacts.greet_unchanged ToString capture_stack toLocaleString
                acquireTokenSilent _ timers
                (fun _ _ _ => eq_refl) (fun _ _ _ => eq_refl)
                (fun _ _ => eq_refl) (fun _ _ => eq_refl)
                (fun _ _ => eq_refl) account pg1) as Htim.
  unfold bind. rewrite Eg in *. cbn [fst] in *.
  repeat split; try assumption.
Qed.



End Facts.

End JourneyFacts.

(** ** Properties of the start-up *)

Module StartupFacts.

Import Client Startup.

Lemma keeps_done {A B} (obs : App -> B) (x : A) : keeps obs (done x).
Proof. intros a. reflexivity. Qed.

Lemma keeps_raise {A B} (obs : App -> B) e : keeps obs (@raise A e).
Proof. intros a. reflexivity. Qed.

Lemma keeps_settle {A B} (obs : App -> B) (o : Outcome A) : keeps obs (settle o).
Proof. intros a. reflexivity. Qed.

Lemma keeps_change {B} (obs : App -> B) f :
  (forall a, obs (f a) = obs a) -> keeps obs (change f).
Proof. intros H a. apply H. Qed.

Lemma keeps_followed {A B C} (obs : App -> C) (m : Task A) (k : A -> Task B) :
  keeps obs m -> (forall x, keeps obs (k x)) -> keeps obs (followed m k).
Proof.
  intros Hm Hk a. unfold followed. specialize (Hm a).
  destruct (m a) as [a1 [x|e]]; cbn [fst] in *.
  - rewrite (Hk x a1). exact Hm.
  - exact Hm.
Qed.

Lemma keeps_attempt {A C} (obs : App -> C) (m : Task A) handler :
  keeps obs m -> (forall e, keeps obs (handler e)) ->
  keeps obs (attempt m handler).
Proof.
  intros Hm Hh a. unfold attempt. specialize (Hm a).
  destruct (m a) as [a1 [x|e]]; cbn [fst] in *.
  - exact Hm.
  - rewrite (Hh e a1). exact Hm.
Qed.

(** A page script inside the application changes the page only. *)
Lemma on_page_result {A} (m : Script A) a :
  on_page m a = (with_page (fst (m (page a))) a, snd (m (page a))).
Proof. unfold on_page. destruct (m (page a)); reflexivity. Qed.

(** The part of the page that [standing] looks at. *)
Lemma keeps_on_page {A} (m : Script A) :
  preserves location m -> preserves requests m -> preserves timers m ->
  keeps standing (on_page m).
Proof.
  intros Hl Hr Ht a. rewrite on_page_result. unfold standing.
  cbn [fst with_page listeners activeAccount page].
  rewrite Hl, Hr, Ht. reflexivity.
Qed.

Lemma followed_returned {A B} (m : Task A) (k : A -> Task B) a a2 y :
  followed m k a = (a2, Returned y) ->
  exists a1 x, m a = (a1, Returned x) /\ k x a1 = (a2, Returned y).
Proof.
  unfold followed. destruct (m a) as [a1 [x|e]]; [|discriminate].
  intros H. exists a1, x. split; [reflexivity|exact H].
Qed.

Lemma longer_list {A} (l : list A) x t : l <> (l ++ x :: t)%list.
Proof.
  intros H. apply (f_equal (@length A)) in H. rewrite length_app in H.
  cbn in H. lia.
Qed.

(** Walks through a task that leaves [standing] alone. *)
Ltac standing_step :=
  first [ apply keeps_followed; [|intros ?]
        | apply keeps_attempt; [|intros ?]
        | apply keeps_change; intros ?; reflexivity
        | apply keeps_done | apply keeps_raise | apply keeps_settle
        | apply keeps_on_page;
          solve [ apply PageFacts.preserves_effect; intros ?; reflexivity
                | apply PageFacts.preserves_read
                | apply PageFacts.read_property_unchanged
                | apply ClientFacts.handleAuthenticatedUser_keeps
                | apply PageFacts.greet_unchanged; reflexivity ]
        | match goal with
          | |- keeps _ (match ?x with _ => _ end) => destruct x
          end ].

Section Facts.

Variable ToString : JValue -> Outcome string.
Variable capture_stack : string -> string -> string.
Variable toLocaleString : Z -> string.
Variable Date_now : Z.
Variable fetch : FetchRequest -> FetchResult.
Variable acquireTokenSilent : Account -> Outcome TokenResponse.
Variable msal_defined : bool.
Variable fetch_get : string -> FetchResult.
Variable PublicClientApplication : MsalAuth -> Outcome unit.
Variable initialize : Outcome unit.
Variable handleRedirectPromise : Outcome (option (TokenResponse * Account)).
Variable getAllAccounts : list Account.
Variable URLSearchParams_get : string -> string -> option string.

#[local] Abbreviation init :=
  (Startup.init ToString capture_stack toLocaleString Date_now fetch
     acquireTokenSilent msal_defined fetch_get PublicClientApplication
     initialize handleRedirectPromise getAllAccounts URLSearchParams_get).
#[local] Abbreviation startup :=
  (Startup.startup capture_stack msal_defined fetch_get
     PublicClientApplication initialize URLSearchParams_get).
#[local] Abbreviation after_detection :=
  (Startup.after_detection ToString capture_stack toLocaleString Date_now
     fetch acquireTokenSilent handleRedirectPromise getAllAccounts).
#[local] Abbreviation standard_flow :=
  (Startup.standard_flow ToString capture_stack toLocaleString Date_now
     acquireTokenSilent handleRedirectPromise getAllAccounts).
#[local] Abbreviation detect := (checkForSessionTokenInUrl URLSearchParams_get).
#[local] Abbreviation handoff :=
  (handleSessionTokenExchange ToString capture_stack toLocaleString Date_now
     fetch acquireTokenSilent).
#[local] Abbreviation init_failed := (Startup.init_failed Date_now).

Lemma startup_keeps : keeps standing startup.
Proof.
  unfold Startup.startup, fetchConfig. repeat standing_step.
Qed.

(** The token [startup] returns is the one in the address it was given. *)
Lemma startup_returned a a1 found :
  startup a = (a1, Returned found) ->
  found = detect (page a) /\ standing a1 = standing a.
Proof.
  intros H. pose proof (startup_keeps a) as K. rewrite H in K. cbn [fst] in K.
  split; [|exact K].
  unfold Startup.startup in H.
  repeat (apply followed_returned in H;
          let a' := fresh "a" in let x := fresh "x" in let S := fresh "S" in
          destruct H as (a' & x & S & H)).
  rewrite on_page_result in H. cbn [read fst snd] in H.
  injection H as <- <-.
  unfold checkForSessionTokenInUrl. unfold standing in K.
  cbn [with_page page] in K. unfold location in K.
  injection K as _ _ _ Hs _ _ _. rewrite Hs. reflexivity.
Qed.

Lemma init_failed_result e a :
  init_failed e a =
    (with_page
       (showDebugInfo Date_now e
          (updateStatus "Error initializing" true
             (console_write (ConsoleError "Initialization error:" e) (page a))))
       a,
     Returned tt).
Proof. reflexivity. Qed.

(** X15: [init] never lets an exception out: whatever the network, MSAL
    and the page scripts do, it returns. *)
Theorem init_never_throws a : snd (init a) = Returned tt.
Proof.
  unfold Startup.init, attempt.
  destruct (followed startup after_detection a) as [a1 [[]|e]];
    [reflexivity|].
  rewrite init_failed_result. reflexivity.
Qed.

Lemma standard_flow_keeps_page :
  keeps (fun a => (location (page a), requests (page a), timers (page a)))
        standard_flow.
Proof.
  assert (forall A (m : Script A),
            preserves location m -> preserves requests m -> preserves timers m ->
            keeps (fun a => (location (page a), requests (page a), timers (page a)))
                  (on_page m)) as Hpage.
  { intros A m Hl Hr Ht a. rewrite on_page_result.
    cbn [fst with_page page]. rewrite Hl, Hr, Ht. reflexivity. }
  unfold Startup.standard_flow, handleResponse.
  repeat first
    [ apply keeps_followed; [|intros ?]
    | apply keeps_attempt; [|intros ?]
    | apply keeps_change; intros ?; reflexivity
    | apply keeps_done | apply keeps_settle
    | apply Hpage;
      solve [ apply PageFacts.preserves_effect; intros ?; reflexivity
            | apply ClientFacts.handleAuthenticatedUser_keeps
            | apply PageFacts.greet_unchanged; reflexivity ]
    | match goal with
      | |- keeps _ (match ?x with _ => _ end) => destruct x
      end ].
Qed.

Lemma before_listeners_keeps :
  keeps listeners
    (followed
       (attempt
          (followed (settle handleRedirectPromise)
             (handleResponse ToString capture_stack toLocaleString
                acquireTokenSilent))
          (fun err =>
             followed
               (on_page (effect (console_write (ConsoleError "Redirect error:" err))))
               (fun _ => on_page (effect (showDebugInfo Date_now err)))))
       (fun _ =>
          match getAllAccounts with
          | first :: _ =>
              followed (change (setActiveAccount first))
                (fun _ =>
                   on_page (handleAuthenticatedUser ToString capture_stack
                              toLocaleString acquireTokenSilent first))
          | [] => on_page (effect showUnauthenticatedView)
          end)).
Proof.
  assert (forall A (m : Script A), keeps listeners (on_page m)) as Hpage.
  { intros A m a. rewrite on_page_result. reflexivity. }
  unfold handleResponse.
  repeat first
    [ apply keeps_followed; [|intros ?]
    | apply keeps_attempt; [|intros ?]
    | apply keeps_change; intros ?; reflexivity
    | apply keeps_done | apply keeps_settle
    | apply Hpage
    | match goal with
      | |- keeps _ (match ?x with _ => _ end) => destruct x
      end ].
Qed.

Lemma followed_assoc {A B C} (m : Task A) (k : A -> Task B) (h : B -> Task C) a :
  followed (followed m k) h a = followed m (fun x => followed (k x) h) a.
Proof.
  unfold followed. destruct (m a) as [a1 [x|e]]; reflexivity.
Qed.

(** A task that ends with [setupEventListeners(); updateStatus('Ready')]
    either gets there or throws before. *)
Lemma ends_ready (pre : Task unit) a :
  keeps listeners pre ->
  let r := followed pre
             (fun _ => followed (change setupEventListeners)
                (fun _ => on_page (effect (updateStatus "Ready" false)))) a in
  (snd r = Returned tt /\
   listeners (fst r) = (listeners a ++ click_listeners)%list /\
   textContent (page (fst r)) "statusText" = "Ready")
  \/
  (exists e, snd r = Thrown e /\ listeners (fst r) = listeners a).
Proof.
  intros K. cbv zeta. specialize (K a). unfold followed.
  destruct (pre a) as [a1 [x|e]]; cbn [fst] in K.
  - left. cbn. rewrite K. repeat split.
  - right. exists e. split; [reflexivity|exact K].
Qed.

(** The standard flow either runs to its end, installing the click
    listeners and reporting "Ready", or throws before any listener is
    installed. *)
Lemma standard_flow_cases a :
  (snd (standard_flow a) = Returned tt /\
   listeners (fst (standard_flow a)) = (listeners a ++ click_listeners)%list /\
   textContent (page (fst (standard_flow a))) "statusText" = "Ready")
  \/
  (exists e, snd (standard_flow a) = Thrown e /\
             listeners (fst (standard_flow a)) = listeners a).
Proof.
  unfold Startup.standard_flow.
  match goal with
  | |- context [followed ?A (fun _ => followed ?B ?T) a] =>
      rewrite <- (followed_assoc A (fun _ => B) T a)
  end.
  apply ends_ready. apply before_listeners_keeps.
Qed.

(** [init], split at the look at the address. *)
Lemma init_cases a :
  (exists a1 e, startup a = (a1, Thrown e) /\ standing a1 = standing a /\
                init a = init_failed e a1)
  \/
  (exists a1, standing a1 = standing a /\
              init a = attempt (after_detection (detect (page a))) init_failed a1).
Proof.
  unfold Startup.init, attempt. unfold followed.
  pose proof (startup_keeps a) as K.
  destruct (startup a) as [a1 [found|e]] eqn:E; cbn [fst] in K.
  - right. exists a1. split; [exact K|].
    destruct (startup_returned a a1 found E) as [-> _]. reflexivity.
  - left. exists a1, e. repeat split. exact K.
Qed.

(** The branch taken on a token: the handoff, and nothing after it. *)
Lemma after_token tok a :
  String.eqb tok EmptyString = false ->
  attempt (after_detection (Some tok)) init_failed a =
    (with_page
       (fst (handoff tok
               (console_write
                  (ConsoleLog "Session token detected - initializing session from native app")
                  (page a))))
       a,
     Returned tt).
Proof.
  intros Ht. unfold Startup.after_detection. rewrite Ht.
  unfold attempt, followed. rewrite !on_page_result. cbn [fst snd effect].
  rewrite ?on_page_result. cbn [page with_page fst snd].
  match goal with
  | |- context [handoff tok ?pg] =>
      destruct (PageFacts.handoff_returns_having_sent ToString capture_stack
                  toLocaleString Date_now fetch acquireTokenSilent tok pg)
        as (-> & _)
  end.
  reflexivity.
Qed.

Lemma pair_eq (A B : Type) (x x' : A) (y y' : B) :
  (x, y) = (x', y') -> x = x' /\ y = y'.
Proof. intros E. split; congruence. Qed.

Lemma standing_parts a1 a :
  standing a1 = standing a ->
  listeners a1 = listeners a /\
  activeAccount a1 = activeAccount a /\
  location (page a1) = location (page a) /\
  requests (page a1) = requests (page a) /\
  timers (page a1) = timers (page a).
Proof.
  unfold standing. intros H.
  apply pair_eq in H. destruct H as (H & Ht).
  apply pair_eq in H. destruct H as (H & Hr).
  apply pair_eq in H. destruct H as (H & Hloc).
  apply pair_eq in H. destruct H as (Hl & Ha).
  repeat split; assumption.
Qed.

(** X16: the click listeners of the four buttons are installed exactly in
    the runs of [init] that end with the status "Ready".  A run that finds
    a session token, or that fails anywhere, leaves the buttons without
    listeners. *)
Theorem listeners_installed_iff_ready a :
  listeners (fst (init a)) = (listeners a ++ click_listeners)%list <->
  textContent (page (fst (init a))) "statusText" = "Ready".
Proof.
  destruct (init_cases a) as [(a1 & e & _ & K & ->) | (a1 & K & ->)];
    apply standing_parts in K; destruct K as (Kl & _).
  - rewrite init_failed_result. cbn [fst listeners with_page page].
    split; intros H.
    + rewrite Kl in H. exfalso. exact (longer_list _ _ _ H).
    + discriminate H.
  - assert (forall a2 e2,
              listeners a2 = listeners a ->
              (listeners (fst (init_failed e2 a2)) =
                 (listeners a ++ click_listeners)%list <->
               textContent (page (fst (init_failed e2 a2))) "statusText" = "Ready"))
      as Hfail.
    { intros a2 e2 H2. rewrite init_failed_result.
      cbn [fst listeners with_page page]. split; intros H.
      - rewrite H2 in H. exfalso. exact (longer_list _ _ _ H).
      - discriminate H. }
    assert ((attempt standard_flow init_failed a1) = (attempt standard_flow init_failed a1)
            -> (listeners (fst (attempt standard_flow init_failed a1)) =
                  (listeners a ++ click_listeners)%list <->
                textContent (page (fst (attempt standard_flow init_failed a1)))
                  "statusText" = "Ready")) as Hstd.
    { intros _. unfold attempt.
      destruct (standard_flow_cases a1) as [(Hs & Hl & Hr) | (e & Hs & Hl)];
        destruct (standard_flow a1) as [a2 o]; cbn [fst snd] in *; subst o.
      - cbn [fst]. rewrite Hl, Kl, Hr. split; reflexivity.
      - apply Hfail. rewrite Hl. exact Kl. }
    destruct (detect (page a)) as [tok|]; [|exact (Hstd eq_refl)].
    destruct (String.eqb tok EmptyString) eqn:Et.
    + unfold Startup.after_detection. rewrite Et. exact (Hstd eq_refl).
    + rewrite (after_token tok a1 Et). cbn [fst listeners with_page page].
      split; intros H.
      * rewrite Kl in H. exfalso. exact (longer_list _ _ _ H).
      * exfalso. revert H.
        match goal with
        | |- context [handoff tok ?pg] =>
            destruct (PageFacts.handoff_status
                        ToString capture_stack toLocaleString Date_now fetch
                        acquireTokenSilent tok pg)
              as [Hs | Hs]
        end; rewrite Hs; discriminate.
Qed.


(** X18: without a session token in the address (no such parameter, or an
    empty one), [init] sends nothing to the exchange endpoint, sets no
    fallback timer and leaves the address alone, however the run ends. *)
Theorem init_without_token a :
  detect (page a) = None \/ detect (page a) = Some EmptyString ->
  requests (page (fst (init a))) = requests (page a) /\
  timers (page (fst (init a))) = timers (page a) /\
  location (page (fst (init a))) = location (page a).
Proof.
  intros Hd.
  destruct (init_cases a) as [(a1 & e & _ & K & ->) | (a1 & K & ->)];
    apply standing_parts in K; destruct K as (_ & _ & Kloc & Kr & Kt).
  - rewrite init_failed_result. cbn [fst with_page page].
    repeat split; assumption.
  - assert (after_detection (detect (page a)) = standard_flow) as ->.
    { destruct Hd as [-> | ->]; reflexivity. }
    unfold attempt. pose proof (standard_flow_keeps_page a1) as Hp.
    destruct (standard_flow a1) as [a2 [x|e]]; cbn [fst] in *;
      apply pair_eq in Hp; destruct Hp as (Hp & Htm);
      apply pair_eq in Hp; destruct Hp as (Hl & Hr).
    + rewrite Hl, Hr, Htm. repeat split; assumption.
    + rewrite init_failed_result. cbn [fst with_page page].
      change (location (showDebugInfo Date_now e
                (updateStatus "Error initializing" true
                   (console_write (ConsoleError "Initialization error:" e) (page a2)))))
        with (location (page a2)).
      cbn [requests timers showDebugInfo updateStatus console_write set_display
           set_debugContent set_indicator_error set_text].
      rewrite Hl, Hr, Htm. repeat split; assumption.
Qed.

(** X19: when the MSAL script is not loaded, [init] stops at once: no
    request goes out, not even for the configuration, MSAL is not created,
    the address keeps its query, and the page reports "Error
    initializing" with the load failure in the debug panel. *)
Theorem init_stops_without_msal a :
  msal_defined = false ->
  gets (fst (init a)) = gets a /\
  complaints (fst (init a)) = (complaints a ++ ["MSAL library not loaded"])%list /\
  msalInstance (fst (init a)) = msalInstance a /\
  listeners (fst (init a)) = listeners a /\
  requests (page (fst (init a))) = requests (page a) /\
  location (page (fst (init a))) = location (page a) /\
  textContent (page (fst (init a))) "statusText" = "Error initializing" /\
  indicator_error (page (fst (init a))) = true /\
  display (page (fst (init a))) "debugInfo" = "block" /\
  debugContent (page (fst (init a))) =
    Some {| dbg_message := "MSAL library failed to load. Please check your internet connection and refresh the page.";
            dbg_name := "Error";
            dbg_stack := capture_stack "Error"
              "MSAL library failed to load. Please check your internet connection and refresh the page.";
            dbg_timestamp := Date_now |}.
Proof.
  intros H. unfold Startup.init, Startup.startup, attempt, followed.
  rewrite H. repeat split.
Qed.

(** X20: when the configuration cannot be fetched (the answer is not
    [ok]), MSAL is neither configured nor created, nothing is sent to the
    exchange endpoint and the address keeps its query; the debug panel
    reads "Failed to fetch configuration". *)
Theorem init_without_config a response :
  msal_defined = true ->
  fetch_get "/api/config" = FetchResolved response -> ok response = false ->
  gets (fst (init a)) = (gets a ++ ["/api/config"])%list /\
  msalConfig (fst (init a)) = msalConfig a /\
  msalInstance (fst (init a)) = msalInstance a /\
  listeners (fst (init a)) = listeners a /\
  requests (page (fst (init a))) = requests (page a) /\
  location (page (fst (init a))) = location (page a) /\
  textContent (page (fst (init a))) "statusText" = "Error initializing" /\
  debugContent (page (fst (init a))) =
    Some {| dbg_message := "Failed to fetch configuration";
            dbg_name := "Error";
            dbg_stack := capture_stack "Error" "Failed to fetch configuration";
            dbg_timestamp := Date_now |}.
Proof.
  intros Hm Hf Hok.
  unfold Startup.init, Startup.startup, fetchConfig, attempt, followed.
  rewrite Hm. cbn [on_page effect done change fst snd]. rewrite Hf, Hok.
  repeat split.
Qed.

End Facts.

End StartupFacts.

(** ** The theorems at the sample environment, requests and pages *)

Module Visits.

Import Sample Visit.

Lemma protected_route_runs_iff_witness :
  (forall user, Server.status (Api.profile user) = 200) /\
  Server.status (snd (get_profile node before_exp (bearer token_unsigned))) = 200 /\
  snd (get_profile node before_exp (bearer token_unsigned)) =
    Api.profile claims_session.
Proof.
  pose proof (ApiFacts.protected_route_runs_iff StringToNumber ToString
                jwt_decode capture_stack Api.profile node before_exp
                (bearer token_unsigned) (fun _ => eq_refl)) as [Hiff Hrun].
  split; [intros user; reflexivity|]. split.
  - apply Hiff.
    exists ("Bearer " ++ token_unsigned)%string,
           (Server.mkDecoded header_hs256 claims_session EmptyString).
    repeat split; reflexivity.
  - apply (Hrun ("Bearer " ++ token_unsigned)%string
                (Server.mkDecoded header_hs256 claims_session EmptyString));
      reflexivity.
Defined.

Lemma validation_error_details_witness :
  Server.body
    (match snd (Api.validateToken StringToNumber ToString jwt_decode_odd
                  capture_stack node before_exp (bearer token_broken)) with
     | Api.Responded r => r
     | Api.Next _ => Server.error_response 0 EmptyString
     end) =
    JObj [ ("error", JStr "Token validation failed");
           ("details", JStr "Unexpected token o in JSON at position 1") ] /\
  Server.body
    (match snd (Api.validateToken StringToNumber ToString jwt_decode_odd
                  capture_stack node before_exp (bearer token_null)) with
     | Api.Responded r => r
     | Api.Next _ => Server.error_response 0 EmptyString
     end) =
    JObj [ ("error", JStr "Token validation failed");
           ("details", JStr "Cannot read properties of null (reading 'exp')") ].
Proof.
  unfold bearer. split.
  - rewrite (proj1 (ApiFacts.validation_error_details_in_every_mode
                      StringToNumber ToString jwt_decode_odd capture_stack node
                      before_exp ("Bearer " ++ token_broken)%string eq_refl)
               not_json eq_refl).
    reflexivity.
  - rewrite (proj2 (ApiFacts.validation_error_details_in_every_mode
                      StringToNumber ToString jwt_decode_odd capture_stack node
                      before_exp ("Bearer " ++ token_null)%string eq_refl)
               (Server.mkDecoded header_hs256 JNull EmptyString) eq_refl eq_refl).
    reflexivity.
Defined.

Lemma validateToken_expiry_is_strict_witness :
  snd (validateToken node at_exp (bearer token_unsigned)) =
    Api.Next claims_session /\
  snd (validateToken node after_exp (bearer token_unsigned)) =
    Api.Responded (Server.error_response 401 "Token expired").
Proof.
  split.
  - apply (proj1 (proj2 (ApiFacts.validateToken_expiry_is_strict StringToNumber
                    ToString jwt_decode capture_stack node at_exp
                    ("Bearer " ++ token_unsigned)%string
                    (Server.mkDecoded header_hs256 claims_session EmptyString)
                    (inject_Z 1700000060) eq_refl eq_refl eq_refl))).
    right. vm_compute. reflexivity.
  - apply (proj1 (ApiFacts.validateToken_expiry_is_strict StringToNumber
                    ToString jwt_decode capture_stack node after_exp
                    ("Bearer " ++ token_unsigned)%string
                    (Server.mkDecoded header_hs256 claims_session EmptyString)
                    (inject_Z 1700000060) eq_refl eq_refl eq_refl)).
    split; [vm_compute; discriminate | vm_compute; reflexivity].
Defined.

Lemma profile_always_names_the_user_witness :
  claims_access <> JNull /\
  get (Server.body (Api.profile claims_access)) "tokenClaims" = Some claims_access /\
  exists u,
    get (Server.body (Api.profile claims_access)) "user" = Some u /\
    get u "name" = Some (JStr "Test User") /\
    truthy_val (get u "email") = true.
Proof.
  assert (claims_access <> JNull) as Hnot by (intros H; discriminate H).
  destruct (ApiFacts.profile_always_names_the_user claims_access Hnot)
    as (Hc & u & Hu & _ & _ & He & Hn & _).
  split; [exact Hnot|]. split; [exact Hc|]. exists u. split; [exact Hu|].
  split; [exact (Hn eq_refl) | exact He].
Defined.

Lemma config_scopes_witness :
  Api.scopes deployed = ["User.Read"; "profile"; "openid"; EmptyString] /\
  length (Api.scopes deployed) = 4%nat /\
  In EmptyString (Api.scopes deployed).
Proof.
  split; [reflexivity|].
  destruct (ApiFacts.config_scopes deployed) as (_ & Hs).
  assert ("User.Read, profile ,openid," <> EmptyString) as Hne
    by (intros H; discriminate H).
  destruct (Hs "User.Read, profile ,openid," eq_refl Hne eq_refl)
    as (Hl & Hin & _).
  split; [exact Hl | exact (Hin "User.Read, profile ,openid" eq_refl)].
Defined.

Lemma config_is_complete_witness :
  get (Server.body (Api.config node)) "authority" =
    Some (JStr "https://login.microsoftonline.com/11111111-2222-3333-4444-555555555555") /\
  get (Server.body (Api.config node)) "scopes" =
    Some (JArr (map JStr (Api.scopes deployed))) /\
  Api.scopes deployed <> [].
Proof.
  destruct (ApiFacts.config_is_complete node) as (_ & _ & _ & Hs & Hne & _).
  split; [reflexivity|]. split; [exact Hs | exact Hne].
Defined.

Lemma greet_shows_the_view_witness :
  Startup.textual (Client.name ada) /\
  Startup.textual (Client.username ada) /\
  Startup.textual (Client.email ada) /\
  exists pg',
    Client.handleAuthenticatedUser ToString capture_stack toLocaleString
      acquireTokenSilent ada plain = (pg', Returned tt) /\
    Client.display pg' "authenticatedView" = "block" /\
    Client.textContent pg' "statusText" = "Authenticated" /\
    JStr (Client.textContent pg' "userName") = JStr "Ada Lovelace" /\
    JStr (Client.textContent pg' "userEmail") = JStr "ada@example.com".
Proof.
  split; [exact I|]. split; [exact I|]. split; [exact I|].
  destruct (PageFacts.greet_shows_the_view ToString capture_stack toLocaleString
              acquireTokenSilent ada plain I I I)
    as (pg' & E & Hv & _ & _ & Hs & Hn & Hm & _).
  exists pg'. split; [exact E|]. split; [exact Hv|]. split; [exact Hs|].
  split; [exact Hn | exact Hm].
Defined.

Lemma initials_shape_witness :
  ascii_only "ada king lovelace" = true /\
  (String.length (Client.initials "ada king lovelace") <= 2)%nat.
Proof.
  split; [reflexivity|].
  exact (proj1 (PageFacts.initials_shape "ada king lovelace" eq_refl)).
Defined.

Lemma initials_of_words_witness :
  Client.initials "Ada" = "A" /\
  Client.initials "Ada King" = "AK" /\
  Client.initials "Ada King Lovelace" = "AK".
Proof.
  exact (PageFacts.initials_of_words "A" "da" "K" "ing" "Lovelace"
           eq_refl eq_refl eq_refl).
Defined.

Lemma handoff_shows_the_token_holder_witness :
  let pg' := fst (handoff (online before_exp) token_unsigned (landing token_unsigned)) in
  Client.textContent pg' "userName" = "Test User" /\
  Client.textContent pg' "userEmail" = "test.user@example.com" /\
  Client.textContent pg' "userInitials" = Client.initials "Test User" /\
  Client.display pg' "authenticatedView" = "block" /\
  Client.display pg' "unauthenticatedView" = "none" /\
  Client.textContent pg' "statusText" = "Authenticated via native app" /\
  Client.location pg' = ("/", EmptyString, EmptyString) /\
  Client.timers pg' = [].
Proof.
  exact (JourneyFacts.handoff_shows_the_token_holder StringToNumber ToString
           jwt_decode ToString capture_stack toLocaleString after_exp
           (online before_exp) acquireTokenSilent production before_exp
           token_unsigned
           (Server.mkDecoded header_hs256 claims_session EmptyString)
           "Test User" "test.user@example.com" (landing token_unsigned)
           eq_refl eq_refl eq_refl eq_refl eq_refl eq_refl eq_refl eq_refl
           eq_refl eq_refl eq_refl).
Defined.



Lemma init_without_token_witness :
  Startup.checkForSessionTokenInUrl URLSearchParams_get plain = None /\
  Client.requests (Startup.page (fst (init config_reply offline (fresh plain)))) = [] /\
  Client.timers (Startup.page (fst (init config_reply offline (fresh plain)))) = [] /\
  Client.location (Startup.page (fst (init config_reply offline (fresh plain)))) =
    ("/", EmptyString, EmptyString).
Proof.
  split; [reflexivity|].
  exact (StartupFacts.init_without_token ToString capture_stack toLocaleString
           after_exp offline acquireTokenSilent true config_reply ready_msal
           (Returned tt) (Returned None) [] URLSearchParams_get (fresh plain)
           (or_introl eq_refl)).
Defined.

Lemma init_stops_without_msal_witness :
  Startup.gets (fst (init_without_msal (fresh (landing token_unsigned)))) = [] /\
  Startup.complaints (fst (init_without_msal (fresh (landing token_unsigned)))) =
    ["MSAL library not loaded"] /\
  Client.location
    (Startup.page (fst (init_without_msal (fresh (landing token_unsigned))))) =
    Client.location (landing token_unsigned).
Proof.
  destruct (StartupFacts.init_stops_without_msal ToString capture_stack toLocaleString
              after_exp offline acquireTokenSilent false config_reply ready_msal
              (Returned tt) (Returned None) [] URLSearchParams_get
              (fresh (landing token_unsigned)) eq_refl)
    as (Hg & Hc & _ & _ & _ & Hloc & _).
  split; [exact Hg|]. split; [exact Hc | exact Hloc].
Defined.

Lemma init_without_config_witness :
  Startup.gets
    (fst (init config_unavailable offline (fresh (landing token_unsigned)))) =
    ["/api/config"] /\
  Startup.msalInstance
    (fst (init config_unavailable offline (fresh (landing token_unsigned)))) = false /\
  Client.requests
    (Startup.page
       (fst (init config_unavailable offline (fresh (landing token_unsigned))))) = [].
Proof.
  destruct (StartupFacts.init_without_config ToString capture_stack
              toLocaleString after_exp offline acquireTokenSilent true
              config_unavailable ready_msal (Returned tt) (Returned None) []
              URLSearchParams_get (fresh (landing token_unsigned))
              {| Client.ok := false; Client.json := Returned JNull |}
              eq_refl eq_refl eq_refl)
    as (Hg & _ & Hi & _ & Hr & _).
  split; [exact Hg|]. split; [exact Hi | exact Hr].
Defined.

End Visits.
